(** * review-go: a shallow embedding of the configuration, provider
    resolution, review orchestration and interactive session code, with the
    properties its specification states about them.

    Layout: Part I embeds the Go code (one module per Go package), Part II
    states and proves the properties. Go strings are byte strings
    ([string]); a Go map is a [gmap]; a value that may be [nil] is an
    [option]. Go [int] is [Z]: the cursor is only decremented when positive
    and only incremented below a slice length, and the widths are only
    divided or reduced from a positive value, so no operation of the code
    leaves the range of [int]. Everything outside the repository (the Unicode
    tables, the process runner, the HTTP client, the terminal renderer) is
    an operation of a type class, so every definition stays executable once
    an instance is given. *)

From Stdlib Require Import ZArith Lia List Ascii String Bool.
From stdpp Require Import base option list strings gmap.

Set Warnings "-register-all,-clear-no-such-hyp".
Set Default Proof Using "Type".

Local Open Scope Z_scope.

(* ================================================================== *)
(** * Part I: the embedding                                            *)
(* ================================================================== *)

(** ** Go's [error] values and [(T, error)] results *)

(** An error is either produced outside the repository (by os/exec or by
    the HTTP client) or built by [fmt.Errorf] / [errors.New]. For the latter
    the format string and its string operands are kept as written in the
    source, together with the operand of [%w] when there is one. *)
Inductive error : Type :=
| External (msg : string) (notFound : bool)
| Errorf (format : string) (args : list string) (wrapped : option error).

Definition errors_New (msg : string) : error := Errorf msg [] None.

(** [errors.Is(err, exec.ErrNotFound)]: follows the [%w] chain. *)
Fixpoint Is_ErrNotFound (e : error) : bool :=
  match e with
  | External _ b => b
  | Errorf _ _ (Some e') => Is_ErrNotFound e'
  | Errorf _ _ None => false
  end.

(** Package fmt is not part of the repository: [Sprintf] renders a format
    string on its operands. *)
Class Fmt := { Sprintf : string -> list string -> string }.

(** [err.Error()]: the format rendered on the operands, the text of the
    wrapped error being the last of them. *)
Fixpoint Error `{Fmt} (e : error) : string :=
  match e with
  | External msg _ => msg
  | Errorf format args None => Sprintf format args
  | Errorf format args (Some e') => Sprintf format (args ++ [Error e'])
  end.

Inductive result (A : Type) : Type :=
| Ok (a : A)
| Err (e : error).
Arguments Ok {A} a.
Arguments Err {A} e.

Definition is_Ok {A} (r : result A) : bool :=
  match r with Ok _ => true | Err _ => false end.

(** ** Package strings (the functions the repository calls) *)

Module strings.

(** UTF-8 encoding of a code point. *)
Definition utf8 (r : N) : list ascii :=
  let b := ascii_of_N in
  if (r <? 128)%N then [b r]
  else if (r <? 2048)%N then [b (192 + r / 64)%N; b (128 + r mod 64)%N]
  else if (r <? 65536)%N then
    [b (224 + r / 4096)%N; b (128 + (r / 64) mod 64)%N; b (128 + r mod 64)%N]
  else
    [b (240 + r / 262144)%N; b (128 + (r / 4096) mod 64)%N;
     b (128 + (r / 64) mod 64)%N; b (128 + r mod 64)%N].

(** The ranges of [unicode.White_Space], the table behind [unicode.IsSpace]. *)
Definition White_Space : list (N * N) :=
  [ (0x0009, 0x000d); (0x0020, 0x0020); (0x0085, 0x0085); (0x00a0, 0x00a0);
    (0x1680, 0x1680); (0x2000, 0x200a); (0x2028, 0x2029); (0x202f, 0x202f);
    (0x205f, 0x205f); (0x3000, 0x3000) ]%N.

Definition runes_of_range (lohi : N * N) : list N :=
  let '(lo, hi) := lohi in
  map (fun k => (lo + N.of_nat k)%N) (seq 0 (S (N.to_nat (hi - lo)))).

(** The byte sequences that decode to a white space rune. *)
Definition spaces : list (list ascii) :=
  Eval vm_compute in map utf8 (flat_map runes_of_range White_Space).

Fixpoint stripPrefix (p s : list ascii) : option (list ascii) :=
  match p, s with
  | [], _ => Some s
  | a :: p', b :: s' => if Ascii.eqb a b then stripPrefix p' s' else None
  | _ :: _, [] => None
  end.

(** Drops one leading rune when it is one of [pats]. *)
Fixpoint dropOne (pats : list (list ascii)) (s : list ascii) : option (list ascii) :=
  match pats with
  | [] => None
  | p :: pats' =>
      match stripPrefix p s with
      | Some s' => Some s'
      | None => dropOne pats' s
      end
  end.

(** The scanning loop of [TrimLeftFunc]: at most [n] runes are dropped. *)
Fixpoint trimLoop (pats : list (list ascii)) (n : nat) (s : list ascii) : list ascii :=
  match n with
  | O => s
  | S n' =>
      match dropOne pats s with
      | Some s' => trimLoop pats n' s'
      | None => s
      end
  end.

Definition TrimLeft (s : list ascii) : list ascii :=
  trimLoop spaces (length s) s.

(** [TrimRightFunc] scans from the end: the same loop on the reversed bytes
    with every encoding reversed. *)
Definition TrimRight (s : list ascii) : list ascii :=
  rev (trimLoop (map (@rev ascii) spaces) (length s) (rev s)).

(** [strings.TrimSpace]: leading, then trailing white space is removed. *)
Definition TrimSpace (s : string) : string :=
  string_of_list_ascii (TrimRight (TrimLeft (list_ascii_of_string s))).

Definition isASCII (s : string) : bool :=
  forallb (fun c => (N_of_ascii c <? 128)%N) (list_ascii_of_string s).

Definition lowerByte (c : ascii) : ascii :=
  let n := N_of_ascii c in
  if ((65 <=? n) && (n <=? 90))%N then ascii_of_N (n + 32) else c.

(** The case tables of package unicode are not part of the repository:
    [mapToLower] stands for [strings.Map(unicode.ToLower, s)], the path
    [strings.ToLower] takes for a string with a byte outside ASCII. *)
Class Unicode := { mapToLower : string -> string }.

(** [strings.ToLower]: pure ASCII strings are lowered byte by byte. *)
Definition ToLower `{Unicode} (s : string) : string :=
  if isASCII s
  then string_of_list_ascii (map lowerByte (list_ascii_of_string s))
  else mapToLower s.

(** [strings.Contains]. *)
Fixpoint containsBytes (sub s : list ascii) : bool :=
  match stripPrefix sub s with
  | Some _ => true
  | None => match s with [] => false | _ :: s' => containsBytes sub s' end
  end.

Definition Contains (s substr : string) : bool :=
  containsBytes (list_ascii_of_string substr) (list_ascii_of_string s).

(** [strings.Split(s, sep)] for a separator of one byte (the repository only
    splits on a line feed): [cur] is the field being read, reversed. *)
Fixpoint splitLoop (sep : ascii) (cur : list ascii) (s : list ascii) : list string :=
  match s with
  | [] => [string_of_list_ascii (rev cur)]
  | c :: s' =>
      if Ascii.eqb c sep
      then string_of_list_ascii (rev cur) :: splitLoop sep [] s'
      else splitLoop sep (c :: cur) s'
  end.

Definition Split (s : string) (sep : ascii) : list string :=
  splitLoop sep [] (list_ascii_of_string s).

End strings.

(** ** Package internal/config *)

Module config.

Module ProviderConfig.
Record t : Type := mk { APIKey : string; BaseURL : string; Model : string }.
End ProviderConfig.

Record Config : Type := mkConfig {
  Provider : string;
  Providers : gmap string ProviderConfig.t;
  APIKey : string;
  BaseURL : string;
  Model : string
}.

(** What [Load] asks of its surroundings: the home directory, and viper
    reading and decoding the file at a path ([ReadInConfig], [Unmarshal]). *)
Class Viper := {
  UserHomeDir : result string;
  Join : string -> string -> string;
  ReadInConfig : string -> option error;
  Unmarshal : string -> result Config
}.

(** [Load], lines 106-134: the checks on the decoded configuration and the
    copy of the selected profile into the flat fields. *)
Definition selectProfile (configPath : string) (cfg : Config) : result Config :=
  if (0 <? Z.of_nat (size (Providers cfg))) then
    if String.eqb (Provider cfg) "" then
      Err (Errorf "provider is empty in %s" [configPath] None)
    else
      match Providers cfg !! Provider cfg with
      | None =>
          Err (Errorf "provider %q not found under providers in %s"
                      [Provider cfg; configPath] None)
      | Some providerCfg =>
          if String.eqb (ProviderConfig.APIKey providerCfg) "" then
            Err (Errorf "api_key for provider %q is empty in %s"
                        [Provider cfg; configPath] None)
          else
            Ok {| Provider := Provider cfg;
                  Providers := Providers cfg;
                  APIKey := ProviderConfig.APIKey providerCfg;
                  BaseURL := ProviderConfig.BaseURL providerCfg;
                  Model := ProviderConfig.Model providerCfg |}
      end
  else if String.eqb (APIKey cfg) "" then
    Err (Errorf "api_key is empty in %s" [configPath] None)
  else Ok cfg.

Definition Load `{Viper} : result Config :=
  match UserHomeDir with
  | Err e => Err (Errorf "get user home dir: %w" [] (Some e))
  | Ok home =>
      let configPath := Join home ".review-go.yaml" in
      match ReadInConfig configPath with
      | Some e => Err (Errorf "read config file %s: %w" [configPath] (Some e))
      | None =>
          match Unmarshal configPath with
          | Err e => Err (Errorf "unmarshal config: %w" [] (Some e))
          | Ok cfg => selectProfile configPath cfg
          end
      end
  end.

End config.

(** ** Package internal/ai *)

Module ai.
Import strings.

Definition defaultModel : string := "gpt-4o-mini".

(** [defaultTemperature = 0.2], kept as the decimal fraction 2/10. *)
Definition defaultTemperature : Z * Z := (2, 10).

(** The parts of go-openai the provider touches. *)
Record ClientConfig : Type := mkClientConfig { authToken : string; BaseURL : string }.
Record Client : Type := mkClient { config : ClientConfig }.

Record ChatCompletionMessage : Type := mkMessage { Role : string; Content : string }.
Record ChatCompletionRequest : Type := mkRequest {
  Model : string;
  Temperature : Z * Z;
  Messages : list ChatCompletionMessage
}.
Record ChatCompletionChoice : Type := mkChoice { Message : ChatCompletionMessage }.
Record ChatCompletionResponse : Type := mkResponse { Choices : list ChatCompletionChoice }.

Definition ChatMessageRoleUser : string := "user".

(** The HTTP backend: the address go-openai uses when none is given, and
    the blocking call, which acts on the outside world [W]. *)
Class Backend (W : Type) := {
  openaiAPIURLv1 : string;
  CreateChatCompletion :
    Client -> ChatCompletionRequest -> W -> result ChatCompletionResponse * W
}.

Definition DefaultConfig `{Backend W} (apiKey : string) : ClientConfig :=
  {| authToken := apiKey; BaseURL := openaiAPIURLv1 |}.

(** The struct behind a [*OpenAICompatibleProvider]; the pointer itself is an
    [option], [None] being [nil]. *)
Record OpenAICompatibleProvider : Type := mkProvider {
  client : option Client;
  model : string
}.

(** The interface [LLMProvider]. *)
Class LLMProvider (W P : Type) := {
  Chat : P -> string -> W -> result string * W
}.

(** The struct behind a [*Reviewer] (reviewer.go). *)
Module Reviewer.
Record t : Type := mk { client : option Client; model : string }.
End Reviewer.

Definition ChatMessageRoleSystem : string := "system".

(** The system prompt of [ReviewCode]. *)
Definition reviewerSystemPrompt : string := "
你是一名资深 Golang 专家，擅长设计高可读性、可维护且鲁棒的 Go 代码。
现在请你扮演“代码审查助手”，针对给定的 Git diff 进行严格的代码评审，重点关注：

1. 安全性：
   - 输入校验是否充分
   - 是否存在潜在的注入风险、越界访问、竞争条件等
   - 敏感信息（如密钥、token、密码）是否有泄露风险

2. 错误处理：
   - 错误是否被忽略或吞掉
   - 错误信息是否清晰、能帮助定位问题
   - 是否合理使用 error wrapping 以及日志

3. 性能与资源使用：
   - 算法与数据结构是否合理
   - 是否存在明显的多余分配或重复计算
   - I/O、网络、并发是否可能成为瓶颈

请以 Markdown 格式输出审查结果，建议结构示例：

## 总体评价
- 简要评价这次变更的整体质量。

## 主要风险与问题
- 按严重程度列出主要问题，并引用相关代码片段或行号（如果 diff 中有）。

## 优化建议
- 给出可以改进的地方，包括安全、错误处理和性能方面的具体建议。

## 认可的优点
- 指出本次改动中值得保留或学习的写法。

回复时只需要给出审查内容，无需重复贴出完整 diff。".

Section Provider.
Context {W : Type} `{Backend W}.

Definition NewOpenAICompatibleProvider (baseURL apiKey model : string)
  : result (option OpenAICompatibleProvider) :=
  let apiKey := TrimSpace apiKey in
  if String.eqb apiKey "" then Err (errors_New "apiKey 不能为空")
  else
    let cfg := DefaultConfig apiKey in
    let baseURL := TrimSpace baseURL in
    let cfg := if negb (String.eqb baseURL "")
               then {| authToken := authToken cfg; BaseURL := baseURL |}
               else cfg in
    let client := {| config := cfg |} in
    let model := TrimSpace model in
    let model := if String.eqb model "" then defaultModel else model in
    Ok (Some {| client := Some client; model := model |}).

Definition OpenAICompatibleProvider_Chat
  (p : option OpenAICompatibleProvider) (prompt : string) (w : W)
  : result string * W :=
  match p with
  | None => (Err (errors_New "OpenAICompatibleProvider 未正确初始化：client 为空"), w)
  | Some p =>
  match client p with
  | None => (Err (errors_New "OpenAICompatibleProvider 未正确初始化：client 为空"), w)
  | Some c =>
      let prompt := TrimSpace prompt in
      if String.eqb prompt "" then (Err (errors_New "prompt 不能为空"), w)
      else
        let req := {| Model := model p;
                      Temperature := defaultTemperature;
                      Messages := [ {| Role := ChatMessageRoleUser;
                                       Content := prompt |} ] |} in
        match CreateChatCompletion c req w with
        | (Err err, w') =>
            (Err (Errorf "调用 OpenAI 兼容接口失败: %w" [] (Some err)), w')
        | (Ok resp, w') =>
            match Choices resp with
            | [] => (Err (errors_New "LLM 返回结果为空：没有任何 choices"), w')
            | choice0 :: _ =>
                let content := TrimSpace (Content (Message choice0)) in
                if String.eqb content "" then
                  (Err (errors_New "LLM 返回的内容为空"), w')
                else (Ok content, w')
            end
        end
  end
  end.

#[export] Instance OpenAICompatible_LLMProvider
  : LLMProvider W (option OpenAICompatibleProvider) :=
  {| Chat := OpenAICompatibleProvider_Chat |}.

Context `{Unicode}.

(** [NewProvider], the [switch] of lines 128-161. *)
Definition fillDefaults (providerName baseURL model : string) : string * string :=
  if String.eqb providerName "deepseek" then
    (if String.eqb baseURL "" then "https://api.deepseek.com" else baseURL,
     if String.eqb model "" then "deepseek-coder" else model)
  else if String.eqb providerName "qwen" || String.eqb providerName "tongyi"
          || String.eqb providerName "ali" || String.eqb providerName "aliyun" then
    (if String.eqb baseURL "" then "https://dashscope.aliyuncs.com/compatible-mode/v1"
     else baseURL,
     if String.eqb model "" then "qwen-turbo" else model)
  else if String.eqb providerName "openai" || String.eqb providerName "" then
    (baseURL, if String.eqb model "" then defaultModel else model)
  else
    (baseURL, if String.eqb model "" then defaultModel else model).

(** [NewProvider], lines 123-161: the (baseURL, model) pair handed to
    [NewOpenAICompatibleProvider]. *)
Definition resolveDefaults (cfg : config.Config) : string * string :=
  let baseURL := TrimSpace (config.BaseURL cfg) in
  let model := TrimSpace (config.Model cfg) in
  let providerName := ToLower (TrimSpace (config.Provider cfg)) in
  fillDefaults providerName baseURL model.

(** [NewProvider] up to its last line: the resolved
    (baseURL, apiKey, model), or the failure on a blank key. *)
Definition resolve (cfg : config.Config) : result (string * string * string) :=
  let apiKey := TrimSpace (config.APIKey cfg) in
  if String.eqb apiKey "" then Err (errors_New "配置中的 api_key 不能为空")
  else
    let '(baseURL, model) := resolveDefaults cfg in
    Ok (baseURL, apiKey, model).

Definition NewProvider (cfg : config.Config)
  : result (option OpenAICompatibleProvider) :=
  match resolve cfg with
  | Err e => Err e
  | Ok (baseURL, apiKey, model) => NewOpenAICompatibleProvider baseURL apiKey model
  end.

(** [openai.NewClient]: a client on the default configuration. *)
Definition NewClient (apiKey : string) : Client :=
  {| config := DefaultConfig apiKey |}.

(** [NewReviewer]: an option is a function on the reviewer being built. *)
Definition NewReviewer (apiKey : string) (opts : list (Reviewer.t -> Reviewer.t))
  : option Reviewer.t :=
  let client := NewClient apiKey in
  let r := Reviewer.mk (Some client) defaultModel in
  Some (fold_left (fun r opt => opt r) opts r).

Definition WithModel (model : string) : Reviewer.t -> Reviewer.t :=
  fun r =>
    if negb (String.eqb (TrimSpace model) "")
    then Reviewer.mk (Reviewer.client r) model
    else r.

Context `{Fmt}.

Definition ReviewCode (r : option Reviewer.t) (diff : string) (w : W)
  : result string * W :=
  match r with
  | None => (Err (errors_New "Reviewer 未正确初始化：client 为空"), w)
  | Some r =>
  match Reviewer.client r with
  | None => (Err (errors_New "Reviewer 未正确初始化：client 为空"), w)
  | Some c =>
      let diff := TrimSpace diff in
      if String.eqb diff "" then (Err (errors_New "diff 为空，无法进行代码审查"), w)
      else
        let systemPrompt := reviewerSystemPrompt in
        let userPrompt := Sprintf "请审查以下 Git diff（只读即可，不需要给出可直接应用的 patch），并按照系统提示要求返回 Markdown 格式的审查报告：

```diff
%s
```" [diff] in
        let req := {| Model := Reviewer.model r;
                      Temperature := defaultTemperature;
                      Messages := [ {| Role := ChatMessageRoleSystem;
                                       Content := systemPrompt |};
                                    {| Role := ChatMessageRoleUser;
                                       Content := userPrompt |} ] |} in
        match CreateChatCompletion c req w with
        | (Err err, w') =>
            (Err (Errorf "调用 LLM 进行代码审查失败: %w" [] (Some err)), w')
        | (Ok resp, w') =>
            match Choices resp with
            | [] => (Err (errors_New "LLM 返回结果为空：没有任何 choices"), w')
            | choice0 :: _ =>
                let content := TrimSpace (Content (Message choice0)) in
                if String.eqb content "" then
                  (Err (errors_New "LLM 返回的审查内容为空"), w')
                else (Ok content, w')
            end
        end
  end
  end.

End Provider.

End ai.

(** ** Package cmd: the [config set-key] and [config set-provider] commands *)

Module cmd.

(** A decoded YAML value held in an [interface{}]: [nil], a string, a
    [map[string]interface{}], or a value of any other dynamic type (number,
    boolean, sequence, mapping with a key that is not a string), kept as its
    source text. *)
#[local] Unset Elimination Schemes.
Inductive Value : Type :=
| VNil
| VString (s : string)
| VMap (m : gmap string Value)
| VOther (raw : string).
#[local] Set Elimination Schemes.

(** A variable of type [map[string]interface{}]: [None] is the nil map. *)
Definition document : Type := option (gmap string Value).

(** [m[k]]: reading a missing key, or any key of the nil map, gives [nil]. *)
Definition index (m : document) (k : string) : Value :=
  match m with
  | Some g => default VNil (g !! k)
  | None => VNil
  end.

(** [m[k] = v]: [None] is the run-time panic of an assignment to an entry
    of the nil map. *)
Definition assign (m : document) (k : string) (v : Value) : option (gmap string Value) :=
  match m with
  | Some g => Some (<[k := v]> g)
  | None => None
  end.

Definition isNil (v : Value) : bool :=
  match v with VNil => true | _ => false end.

(** [v == s] for an interface [v] and a string [s]. *)
Definition eqString (v : Value) (s : string) : bool :=
  match v with VString s' => String.eqb s' s | _ => false end.

(** The operating system and the YAML codec, as both commands use them.
    [Stat] answers [None] when the file is there; [Unmarshal] gives what the
    decoder leaves in the variable [config], the nil map included. *)
Class OS := {
  UserHomeDir : result string;
  Join : string -> string -> string;
  Stat : string -> option error;
  ReadFile : string -> result string;
  Unmarshal : string -> result document;
  Marshal : gmap string Value -> result string;
  WriteFile : string -> string -> option error
}.

(** How a command ends: it panics, or it returns [err] after having called
    [os.WriteFile] on [write] (the path and the document that was
    marshalled), if it got that far. *)
Inductive outcome : Type :=
| Panic
| Done (write : option (string * gmap string Value)) (err : option error).

(** Lines 112-122 and 171-183, shared by both commands. *)
Definition save `{OS} (configPath : string) (config : gmap string Value) : outcome :=
  match Marshal config with
  | Err err => Done None (Some (Errorf "序列化配置失败: %w" [] (Some err)))
  | Ok data =>
      match WriteFile configPath data with
      | Some err =>
          Done (Some (configPath, config))
               (Some (Errorf "写入配置文件失败: %w" [] (Some err)))
      | None => Done (Some (configPath, config)) None
      end
  end.

(** [setKeyCmd], lines 79-97: the defaults of the providers known here. *)
Definition knownDefaults (provider : string) (providerConfig : gmap string Value)
  : gmap string Value :=
  if isNil (index (Some providerConfig) "base_url") then
    if String.eqb provider "deepseek" then
      let providerConfig := <["base_url" := VString "https://api.deepseek.com"]> providerConfig in
      if isNil (index (Some providerConfig) "model")
      then <["model" := VString "deepseek-coder"]> providerConfig
      else providerConfig
    else if String.eqb provider "qwen" || String.eqb provider "tongyi"
            || String.eqb provider "ali" || String.eqb provider "aliyun" then
      let providerConfig :=
        <["base_url" := VString "https://dashscope.aliyuncs.com/compatible-mode/v1"]>
          providerConfig in
      if isNil (index (Some providerConfig) "model")
      then <["model" := VString "qwen-turbo"]> providerConfig
      else providerConfig
    else if String.eqb provider "openai" then
      if isNil (index (Some providerConfig) "model")
      then <["model" := VString "gpt-4o-mini"]> providerConfig
      else providerConfig
    else providerConfig
  else providerConfig.

(** [setKeyCmd], lines 54-109: the change made to the decoded document.
    The maps [providers] and [providerConfig] are shared with [config], so
    what is written through them shows in the document that is saved. *)
Definition patchKey (apiKey provider : string) (config : document)
  : option (gmap string Value) :=
  if negb (String.eqb provider "") then
    config ← (if isNil (index config "providers")
              then assign config "providers" (VMap ∅)
              else config);
    let providers :=
      match index (Some config) "providers" with
      | VMap providers => providers
      | _ => ∅
      end in
    let providerConfig :=
      match providers !! provider with
      | Some (VMap existing) => existing
      | _ => ∅
      end in
    let providerConfig := <["api_key" := VString apiKey]> providerConfig in
    let providerConfig := knownDefaults provider providerConfig in
    let providers := <[provider := VMap providerConfig]> providers in
    let config := <["providers" := VMap providers]> config in
    if isNil (index (Some config) "provider") || eqString (index (Some config) "provider") ""
    then Some (<["provider" := VString provider]> config)
    else Some config
  else assign config "api_key" (VString apiKey).

Definition setKeyCmd `{OS} (apiKey provider : string) : outcome :=
  match UserHomeDir with
  | Err err => Done None (Some (Errorf "获取用户主目录失败: %w" [] (Some err)))
  | Ok home =>
      let configPath := Join home ".review-go.yaml" in
      let loaded : result document :=
        match Stat configPath with
        | None =>
            match ReadFile configPath with
            | Err err => Err (Errorf "读取配置文件失败: %w" [] (Some err))
            | Ok data =>
                match Unmarshal data with
                | Err err => Err (Errorf "解析配置文件失败: %w" [] (Some err))
                | Ok config => Ok config
                end
            end
        | Some _ => Ok (Some ∅)
        end in
      match loaded with
      | Err err => Done None (Some err)
      | Ok config =>
          match patchKey apiKey provider config with
          | None => Panic
          | Some config => save configPath config
          end
      end
  end.

Definition setProviderCmd `{OS} (provider : string) : outcome :=
  match UserHomeDir with
  | Err err => Done None (Some (Errorf "获取用户主目录失败: %w" [] (Some err)))
  | Ok home =>
      let configPath := Join home ".review-go.yaml" in
      match Stat configPath with
      | Some _ =>
          Done None (Some (Errorf "配置文件不存在，请先使用 'config set-key' 设置 API Key" [] None))
      | None =>
          match ReadFile configPath with
          | Err err => Done None (Some (Errorf "读取配置文件失败: %w" [] (Some err)))
          | Ok data =>
              match Unmarshal data with
              | Err err => Done None (Some (Errorf "解析配置文件失败: %w" [] (Some err)))
              | Ok config =>
                  match index config "providers" with
                  | VMap providers =>
                      match providers !! provider with
                      | None =>
                          Done None (Some (Errorf
                            "提供商 '%s' 不存在，请先使用 'config set-key --provider %s' 设置该提供商的 API Key"
                            [provider; provider] None))
                      | Some _ =>
                          match assign config "provider" (VString provider) with
                          | None => Panic
                          | Some config => save configPath config
                          end
                      end
                  | _ =>
                      Done None (Some (Errorf
                        "未找到多提供商配置，请先使用 'config set-key --provider %s' 设置该提供商的 API Key"
                        [provider] None))
                  end
              end
          end
      end
  end.

End cmd.

(** ** Running git *)

(** [exec.Command("git", args...).CombinedOutput()]: the output and the
    error, if any; the call acts on the outside world [W]. *)
Class Git (W : Type) := {
  CombinedOutput : list string -> W -> (string * option error) * W
}.

(** ** Package internal/gitops *)

Module gitops.
Import strings.

Section Gitops.
Context {W : Type} `{Git W}.

(** The loop of [GetChangedFiles] over the lines of the output. *)
Fixpoint collect (lines : list string) (seen : gset string) (files : list string)
  : list string :=
  match lines with
  | [] => files
  | line :: rest =>
      let line := TrimSpace line in
      if String.eqb line "" then collect rest seen files
      else if bool_decide (line ∈ seen) then collect rest seen files
      else collect rest ({[ line ]} ∪ seen) (files ++ [line])
  end.

(** On success the slice returned is never nil. *)
Definition GetChangedFiles (w : W) : result (list string) * W :=
  let args := ["diff"; "--cached"; "--name-only"; "--"; "*.go"] in
  let '((out, err), w') := CombinedOutput args w in
  let output := TrimSpace out in
  match err with
  | Some err =>
      if Is_ErrNotFound err then
        (Err (Errorf "git 未安装或不在 PATH 中: %w" [] (Some err)), w')
      else if Contains output "not a git repository" then
        (Err (Errorf "当前目录不是 git 仓库: %s" [output] None), w')
      else if negb (String.eqb output "") then
        (Err (Errorf "执行 git diff --name-only 失败: %s" [output] None), w')
      else
        (Err (Errorf "执行 git diff --name-only 失败: %w" [] (Some err)), w')
  | None =>
      if String.eqb output "" then (Ok [], w')
      else (Ok (collect (Split output "010") ∅ []), w')
  end.

Definition GetStagedDiff (w : W) : result string * W :=
  let args := ["diff"; "--cached"; "--unified=0"; "--"; "*.go"] in
  let '((out, err), w') := CombinedOutput args w in
  let output := TrimSpace out in
  match err with
  | Some err =>
      if Is_ErrNotFound err then
        (Err (Errorf "git 未安装或不在 PATH 中: %w" [] (Some err)), w')
      else if Contains output "not a git repository" then
        (Err (Errorf "当前目录不是 git 仓库: %s" [output] None), w')
      else if negb (String.eqb output "") then
        (Err (Errorf "执行 git diff 失败: %s" [output] None), w')
      else
        (Err (Errorf "执行 git diff 失败: %w" [] (Some err)), w')
  | None => (Ok output, w')
  end.

End Gitops.
End gitops.

(** ** Package internal/ui *)

Module ui.
Import strings.

(** [reviewLoadedMsg]: a nil slice or map is [None]. *)
Record reviewLoadedMsg : Type := mkLoaded {
  msg_files : option (list string);
  msg_reviews : option (gmap string string);
  msg_err : option error
}.

(** The messages [Update] tells apart: a key press is known by its
    [String()], a spinner tick by its payload. *)
Inductive Msg : Type :=
| WindowSizeMsg (Width Height : Z)
| TickMsg (tick : Z)
| ReviewLoaded (msg : reviewLoadedMsg)
| KeyMsg (key : string)
| OtherMsg.

(** The commands [Update] returns: [nil], [tea.Quit], or the spinner's. *)
Inductive Cmd : Type :=
| CmdNil
| Quit
| SpinnerCmd (tick : Z).

Inductive Style : Type :=
| spinnerStyle | infoStyle | errorStyle | fileListStyle
| selectedFileStyle | normalFileStyle | reviewStyle.

(** The terminal libraries (bubbles, lipgloss, glamour): [Render] takes the
    style and the width set on it, if any; [Place] is the centred box of
    [centerInTerminal]; [Glamour] is the Markdown renderer at a word wrap. *)
Class Terminal (S : Type) := {
  spinner_New : S;
  spinner_Update : S -> Z -> S * Cmd;
  spinner_View : S -> string;
  Render : Style -> option Z -> string -> string;
  JoinVertical : list string -> string;
  JoinHorizontal : list string -> string;
  Place : Z -> Z -> string -> string;
  Glamour : Z -> string -> result string
}.

Record Model (S P : Type) : Type := mkModel {
  files : option (list string);
  reviews : option (gmap string string);
  loading : bool;
  selected : Z;
  spinner : S;
  width : Z;
  height : Z;
  provider : option P;
  err : option error
}.
Arguments mkModel {S P}.
Arguments files {S P}.
Arguments reviews {S P}.
Arguments loading {S P}.
Arguments selected {S P}.
Arguments spinner {S P}.
Arguments width {S P}.
Arguments height {S P}.
Arguments provider {S P}.
Arguments err {S P}.

(** [len] of a slice that may be nil. *)
Definition len {A} (s : option (list A)) : Z :=
  match s with Some l => Z.of_nat (length l) | None => 0 end.

(** [range] over a slice that may be nil. *)
Definition elems {A} (s : option (list A)) : list A := default [] s.

(** [m[k]] on a [map[string]string] that may be nil. *)
Definition lookupReview (m : option (gmap string string)) (k : string) : string :=
  match m with Some g => default "" (g !! k) | None => "" end.

(** [strings.Join]. *)
Fixpoint Join (l : list string) (sep : string) : string :=
  match l with
  | [] => ""
  | [x] => x
  | x :: rest => x +:+ sep +:+ Join rest sep
  end.

Definition systemPrompt : string := "你是一名资深 Golang 专家，擅长设计高可读性、可维护且鲁棒的 Go 代码。
现在请你扮演“代码审查助手”，针对给定的 Git diff 进行严格的代码评审，重点关注：

1. 安全性：
   - 输入校验是否充分
   - 是否存在潜在的注入风险、越界访问、竞争条件等
   - 敏感信息（如密钥、token、密码）是否有泄露风险

2. 错误处理：
   - 错误是否被忽略或吞掉
   - 错误信息是否清晰、能帮助定位问题
   - 是否合理使用 error wrapping 以及日志

3. 性能与资源使用：
   - 算法与数据结构是否合理
   - 是否存在明显的多余分配或重复计算
   - I/O、网络、并发是否可能成为瓶颈

请以 Markdown 格式输出审查结果，建议结构示例：

## 总体评价
- 简要评价这次变更的整体质量。

## 主要风险与问题
- 按严重程度列出主要问题，并引用相关代码片段或行号（如果 diff 中有）。

## 优化建议
- 给出可以改进的地方，包括安全、错误处理和性能方面的具体建议。

## 认可的优点
- 指出本次改动中值得保留或学习的写法。

回复时只需要给出审查内容，无需重复贴出完整 diff。".

Definition noChanges : string := "暂存区中没有 .go 文件的变更。

请在 Git 暂存区中添加一些 Go 代码的修改后重新运行。

按 q 退出。".

Section UI.
Context {W S P : Type} `{Git W} `{ai.LLMProvider W P} `{Terminal S} `{Fmt}.

Definition NewModel (provider : option P) : Model S P :=
  {| files := None; reviews := Some ∅; loading := true; selected := 0;
     spinner := spinner_New; width := 0; height := 0;
     provider := provider; err := None |}.

Definition buildReviewPrompt (diff : string) : string :=
  let diff := TrimSpace diff in
  if String.eqb diff "" then "暂存区 diff 为空，无需审查。"
  else
    let userPrompt := Sprintf "请审查以下 Git diff（只读即可，不需要给出可直接应用的 patch），并按照上述要求返回 Markdown 格式的审查报告：

```diff
%s
```" [diff] in
    systemPrompt +:+ "

" +:+ userPrompt.

Definition getFileStagedDiff (file : string) (w : W) : result string * W :=
  let '((out, err), w') :=
    CombinedOutput ["diff"; "--cached"; "--unified=0"; "--"; file] w in
  let output := TrimSpace out in
  match err with
  | Some err =>
      if Contains output "not a git repository" then
        (Err (Errorf "当前目录不是 git 仓库：%s" [output] None), w')
      else if negb (String.eqb output "") then
        (Err (Errorf "执行 git diff 失败：%s" [output] None), w')
      else (Err (Errorf "执行 git diff 失败：%w" [] (Some err)), w')
  | None =>
      if String.eqb output "" then
        (Err (Errorf "文件 %s 在暂存区没有 diff 输出" [file] None), w')
      else (Ok output, w')
  end.

(** The [for] loop of [loadReviewsCmd], lines 126-146: the first failure ends
    it with the wrapped error, the map built so far being dropped. *)
Fixpoint reviewEach (provider : P) (files : list string)
  (reviews : gmap string string) (w : W) : result (gmap string string) * W :=
  match files with
  | [] => (Ok reviews, w)
  | f :: rest =>
      match getFileStagedDiff f w with
      | (Err err, w1) =>
          (Err (Errorf "获取文件 %s 的 diff 失败：%w" [f] (Some err)), w1)
      | (Ok diff, w1) =>
          let reviewPrompt := buildReviewPrompt diff in
          match ai.Chat provider reviewPrompt w1 with
          | (Err err, w2) =>
              (Err (Errorf "审查文件 %s 失败：%w" [f] (Some err)), w2)
          | (Ok reply, w2) => reviewEach provider rest (<[f := reply]> reviews) w2
          end
      end
  end.

(** The function [loadReviewsCmd] returns, run on the world [w]. *)
Definition loadReviewsCmd (provider : option P) (w : W) : reviewLoadedMsg * W :=
  match provider with
  | None =>
      ({| msg_files := None; msg_reviews := None;
          msg_err := Some (Errorf "LLM Provider 未初始化" [] None) |}, w)
  | Some provider =>
      match gitops.GetChangedFiles w with
      | (Err err, w1) =>
          ({| msg_files := None; msg_reviews := None;
              msg_err := Some (Errorf "获取暂存区文件失败：%w" [] (Some err)) |}, w1)
      | (Ok files, w1) =>
          if Z.of_nat (length files) =? 0 then
            ({| msg_files := Some []; msg_reviews := Some ∅; msg_err := None |}, w1)
          else
            match reviewEach provider files ∅ w1 with
            | (Err err, w2) =>
                ({| msg_files := None; msg_reviews := None; msg_err := Some err |}, w2)
            | (Ok reviews, w2) =>
                ({| msg_files := Some files; msg_reviews := Some reviews;
                    msg_err := None |}, w2)
            end
      end
  end.

Definition set_selected (m : Model S P) (i : Z) : Model S P :=
  {| files := files m; reviews := reviews m; loading := loading m; selected := i;
     spinner := spinner m; width := width m; height := height m;
     provider := provider m; err := err m |}.

Definition Update (m : Model S P) (msg : Msg) : Model S P * Cmd :=
  match msg with
  | WindowSizeMsg Width Height =>
      ({| files := files m; reviews := reviews m; loading := loading m;
          selected := selected m; spinner := spinner m;
          width := Width; height := Height;
          provider := provider m; err := err m |}, CmdNil)
  | TickMsg tick =>
      if loading m then
        let '(sp, cmd) := spinner_Update (spinner m) tick in
        ({| files := files m; reviews := reviews m; loading := loading m;
            selected := selected m; spinner := sp;
            width := width m; height := height m;
            provider := provider m; err := err m |}, cmd)
      else (m, CmdNil)
  | ReviewLoaded msg =>
      match msg_err msg with
      | None =>
          let m := {| files := msg_files msg; reviews := msg_reviews msg;
                      loading := false; selected := selected m;
                      spinner := spinner m; width := width m; height := height m;
                      provider := provider m; err := None |} in
          if (0 <? len (files m)) && (len (files m) <=? selected m)
          then (set_selected m 0, CmdNil)
          else (m, CmdNil)
      | Some e =>
          ({| files := files m; reviews := reviews m; loading := false;
              selected := selected m; spinner := spinner m;
              width := width m; height := height m;
              provider := provider m; err := Some e |}, CmdNil)
      end
  | KeyMsg key =>
      if String.eqb key "q" || String.eqb key "ctrl+c" then (m, Quit)
      else if loading m || bool_decide (err m ≠ None) then (m, CmdNil)
      else if String.eqb key "up" || String.eqb key "k" then
        (if 0 <? selected m then set_selected m (selected m - 1) else m, CmdNil)
      else if String.eqb key "down" || String.eqb key "j" then
        (if selected m <? len (files m) - 1
         then set_selected m (selected m + 1) else m, CmdNil)
      else (m, CmdNil)
  | OtherMsg => (m, CmdNil)
  end.

Definition centerInTerminal (content : string) (width height : Z) : string :=
  if (width <=? 0) || (height <=? 0) then content
  else Place width height content.

Definition renderMarkdown (md : string) (width : Z) : string :=
  let width := if width <=? 0 then 80 else width in
  match Glamour width md with
  | Err _ => md
  | Ok out => out
  end.

Definition viewLoading (m : Model S P) : string :=
  let sp := spinner_View (spinner m) in
  let text := "正在分析暂存区中的 Go 代码并调用 AI 进行审查，请稍候...
(按 q 退出)" in
  let content := JoinVertical [Render spinnerStyle None sp; Render infoStyle None text] in
  centerInTerminal content (width m) (height m).

Definition viewError (m : Model S P) : string :=
  let msg := Sprintf "发生错误：

%s

按 q 退出。" [from_option Error "" (err m)] in
  let content := Render errorStyle None msg in
  centerInTerminal content (width m) (height m).

(** [viewContent], lines 307-317: the Markdown shown for the selection. *)
Definition selectedReview (m : Model S P) : string :=
  if (0 <=? selected m) && (selected m <? len (files m)) then
    let file := default "" (elems (files m) !! Z.to_nat (selected m)) in
    let reviewMD := lookupReview (reviews m) file in
    if String.eqb (TrimSpace reviewMD) "" then "_该文件暂无审查结果。_"
    else reviewMD
  else "_未选中文件。_".

Definition viewContent (m : Model S P) : string :=
  if len (files m) =? 0 then
    centerInTerminal (Render infoStyle None noChanges) (width m) (height m)
  else
    let totalWidth := width m in
    let totalWidth := if totalWidth <=? 0 then 100 else totalWidth in
    let leftWidth := Z.quot totalWidth 4 in
    let leftWidth := if leftWidth <? 20 then 20 else leftWidth in
    let rightWidth := totalWidth - leftWidth - 4 in
    let rightWidth := if rightWidth <? 20 then 20 else rightWidth in
    let fileLines :=
      imap (fun i f =>
              if Z.of_nat i =? selected m
              then Render selectedFileStyle None ("> " +:+ f)
              else Render normalFileStyle None ("  " +:+ f))
           (elems (files m)) in
    let fileList := Join fileLines "
" in
    let fileListBox := Render fileListStyle (Some leftWidth) fileList in
    let reviewMD := selectedReview m in
    let renderedReview := renderMarkdown reviewMD rightWidth in
    let reviewBox := Render reviewStyle (Some rightWidth) renderedReview in
    JoinHorizontal [fileListBox; reviewBox].

(** [viewContent], lines 275-288: the widths of the two columns. *)
Definition columnWidths (width : Z) : Z * Z :=
  let totalWidth := width in
  let totalWidth := if totalWidth <=? 0 then 100 else totalWidth in
  let leftWidth := Z.quot totalWidth 4 in
  let leftWidth := if leftWidth <? 20 then 20 else leftWidth in
  let rightWidth := totalWidth - leftWidth - 4 in
  let rightWidth := if rightWidth <? 20 then 20 else rightWidth in
  (leftWidth, rightWidth).

Definition View (m : Model S P) : string :=
  if loading m then viewLoading m
  else if bool_decide (err m ≠ None) then viewError m
  else viewContent m.

(** The session after a list of messages, oldest first. *)
Definition run (m : Model S P) (msgs : list Msg) : Model S P :=
  fold_left (fun m msg => fst (Update m msg)) msgs m.

End UI.
End ui.

(** ** Package cmd: the root command *)

Module root.

(** Bubble Tea's event loop, [tea.NewProgram(m, tea.WithAltScreen()).Run()]:
    the error it ends with, if any. *)
Class Tea (S P : Type) := { Run : ui.Model S P -> option error }.

Section Root.
Context {W S : Type} `{config.Viper} `{ai.Backend W} `{strings.Unicode}
  `{ui.Terminal S} `{Tea S (option ai.OpenAICompatibleProvider)}.

(** [rootCmd.RunE]; the provider handed to [NewModel] is an interface
    holding the pointer [NewProvider] returned. *)
Definition rootCmd : option error :=
  match config.Load with
  | Err err => Some (Errorf "加载配置失败: %w" [] (Some err))
  | Ok cfg =>
      match ai.NewProvider cfg with
      | Err err => Some (Errorf "初始化 LLM Provider 失败: %w" [] (Some err))
      | Ok provider =>
          let m := ui.NewModel (Some provider) in
          match Run m with
          | Some err => Some (Errorf "启动 TUI 失败: %w" [] (Some err))
          | None => None
          end
      end
  end.

End Root.
End root.

(** ** The words of the properties, and sample surroundings *)

Module props.

(** [Load] rejects a decoded configuration. *)
Definition rejected (cfg : config.Config) : Prop :=
  (config.Providers cfg <> ∅ /\
     (config.Provider cfg = "" \/
      config.Providers cfg !! config.Provider cfg = None \/
      exists p, config.Providers cfg !! config.Provider cfg = Some p /\
        config.ProviderConfig.APIKey p = ""))
  \/ (config.Providers cfg = ∅ /\ config.APIKey cfg = "").

(** The names [NewProvider] resolves to the DashScope endpoint. *)
Definition isQwen (name : string) : Prop :=
  name = "qwen" \/ name = "tongyi" \/ name = "ali" \/ name = "aliyun".

(** The names for which [setKeyCmd] writes a base URL, as it compares
    them: byte for byte. *)
Definition hasEndpoint (provider : string) : Prop :=
  provider = "deepseek" \/ provider = "qwen" \/ provider = "tongyi" \/
  provider = "ali" \/ provider = "aliyun".

(** The cursor is never negative and is inside a list that has files. *)
Definition cursor_ok {S P : Type} (m : ui.Model S P) : Prop :=
  0 <= ui.selected m /\ (0 < ui.len (ui.files m) -> ui.selected m < ui.len (ui.files m)).

End props.

(** Stand-ins for what lies outside the repository, to run the code on
    sample inputs. *)
Module samples.

(** No Unicode case table: the sample names are ASCII. *)
Definition noTables : strings.Unicode := {| strings.mapToLower := fun s => s |}.

(** A verb-free rendering: the format, then the operands. *)
Definition plainFmt : Fmt :=
  {| Sprintf := fun format args => String.concat "|" (format :: args) |}.

(** A configuration file with two profiles, the default one being
    [deepseek], and the home directory it is read from. *)
Definition twoProfiles : config.Config :=
  config.mkConfig "deepseek"
    {[ "deepseek" := config.ProviderConfig.mk "sk-1" "" "deepseek-chat";
       "openai" := config.ProviderConfig.mk "" "" "gpt-4o" ]}
    "" "" "".

Definition homeOf (cfg : config.Config) : config.Viper :=
  {| config.UserHomeDir := Ok "/home/dev";
     config.Join := fun dir name => dir +:+ "/" +:+ name;
     config.ReadInConfig := fun _ => None;
     config.Unmarshal := fun _ => Ok cfg |}.

(** A machine whose configuration file is missing ([None]) or decodes to
    the given result; every write succeeds. *)
Definition machine (file : option (result cmd.document)) : cmd.OS :=
  {| cmd.UserHomeDir := Ok "/home/dev";
     cmd.Join := fun dir name => dir +:+ "/" +:+ name;
     cmd.Stat := fun _ =>
       match file with
       | None => Some (External "stat: no such file or directory" false)
       | Some _ => None
       end;
     cmd.ReadFile := fun _ => Ok "(yaml)";
     cmd.Unmarshal := fun _ => match file with Some r => r | None => Ok None end;
     cmd.Marshal := fun _ => Ok "(yaml)";
     cmd.WriteFile := fun _ _ => None |}.

(** A document with one profile, the default provider being another. *)
Definition oneProfile : gmap string cmd.Value :=
  {[ "provider" := cmd.VString "openai";
     "providers" := cmd.VMap
        {[ "deepseek" := cmd.VMap {[ "api_key" := cmd.VString "sk-1" ]} ]} ]}.

(** A world that plays back what git prints and what the backend answers,
    one entry per call. *)
Record World : Type := mkWorld {
  gitOutputs : list (string * option error);
  answers : list (result ai.ChatCompletionResponse)
}.

Definition playGit : Git World :=
  {| CombinedOutput := fun _ w =>
       match gitOutputs w with
       | [] => (("", None), w)
       | o :: rest => (o, mkWorld rest (answers w))
       end |}.

Definition playBackend : ai.Backend World :=
  {| ai.openaiAPIURLv1 := "https://api.openai.com/v1";
     ai.CreateChatCompletion := fun _ _ w =>
       match answers w with
       | [] => (Err (External "connection refused" false), w)
       | a :: rest => (a, mkWorld (gitOutputs w) rest)
       end |}.

Definition answer (text : string) : result ai.ChatCompletionResponse :=
  Ok (ai.mkResponse [ai.mkChoice (ai.mkMessage "assistant" text)]).

(** A terminal that draws nothing: styles and boxes leave the text as it
    is, the spinner counts its ticks. *)
Definition plainTerminal : ui.Terminal Z :=
  {| ui.spinner_New := 0;
     ui.spinner_Update := fun s tick => (s + 1, ui.SpinnerCmd tick);
     ui.spinner_View := fun _ => ".";
     ui.Render := fun _ _ text => text;
     ui.JoinVertical := fun blocks => String.concat "
" blocks;
     ui.JoinHorizontal := fun blocks => String.concat " " blocks;
     ui.Place := fun _ _ text => text;
     ui.Glamour := fun _ md => Ok md |}.

Definition reviewer : option ai.OpenAICompatibleProvider :=
  Some (ai.mkProvider (Some (ai.mkClient (ai.mkClientConfig "sk-1" ""))) "m1").

(** Two staged files: the first has a diff and gets a review, the diff of
    the second comes back blank. *)
Definition secondDiffBlank : World :=
  mkWorld [ ("a.go
b.go
", None);
            ("@@ -1 +1 @@
-x
+y", None);
            ("  ", None) ]
          [ answer " Looks fine. " ].


(** One staged file, reviewed. *)
Definition oneReviewed : World :=
  mkWorld [ ("a.go", None); ("@@ -1 +1 @@
-x
+y", None) ]
          [ answer " Looks fine. " ].

End samples.

(* ================================================================== *)
(** * Part II: properties                                              *)
(* ================================================================== *)

(** ** Facts about [strings.TrimSpace] *)

Module strings_facts.
Import strings.

Lemma stripPrefix_spec (p s s' : list ascii) :
  stripPrefix p s = Some s' <-> s = p ++ s'.
Proof.
  revert s. induction p as [|a p IH]; intros s; simpl.
  - split; congruence.
  - destruct s as [|b s]; [split; discriminate|].
    destruct (Ascii.eqb_spec a b) as [->|Hne].
    + rewrite IH. split; congruence.
    + split; [discriminate|]. intros [= ? _]. congruence.
Qed.

Lemma dropOne_Some (pats : list (list ascii)) (s s' : list ascii) :
  dropOne pats s = Some s' -> exists p, In p pats /\ s = p ++ s'.
Proof.
  induction pats as [|p ps IH]; simpl; [discriminate|].
  destruct (stripPrefix p s) as [r|] eqn:E.
  - intros [= <-]. apply stripPrefix_spec in E. eauto.
  - intros Hd. destruct (IH Hd) as (q & ? & ?). eauto.
Qed.

Lemma dropOne_None (pats : list (list ascii)) (s : list ascii) :
  dropOne pats s = None <-> forall p, In p pats -> stripPrefix p s = None.
Proof.
  induction pats as [|p ps IH]; simpl.
  - split; [intros _ ? []|reflexivity].
  - destruct (stripPrefix p s) eqn:E.
    + split; [discriminate|]. intros Hall. rewrite Hall in E by auto. discriminate.
    + rewrite IH. split.
      * intros Hall q [<-|Hq]; auto.
      * intros Hall q Hq. auto.
Qed.

(** A string that starts with no pattern has no prefix that does. *)
Lemma dropOne_None_prefix (pats : list (list ascii)) (u v : list ascii) :
  dropOne pats (u ++ v) = None -> dropOne pats u = None.
Proof.
  rewrite !dropOne_None. intros Hall p Hp. specialize (Hall p Hp).
  destruct (stripPrefix p u) as [r|] eqn:E; [|reflexivity].
  apply stripPrefix_spec in E. subst u.
  assert (stripPrefix p ((p ++ r) ++ v) = Some (r ++ v)) as Hs
    by (apply stripPrefix_spec; now rewrite <- app_assoc).
  congruence.
Qed.

Section Loop.
Variable pats : list (list ascii).
Hypothesis pats_nonempty : Forall (fun p => p <> []) pats.

(** The fuel [length s] is enough: the loop stops on a string that starts
    with no pattern. *)
Lemma trimLoop_clean (n : nat) (s : list ascii) :
  (length s <= n)%nat -> dropOne pats (trimLoop pats n s) = None.
Proof using pats_nonempty.
  pose proof (proj1 (List.Forall_forall _ _) pats_nonempty) as Hne.
  revert s. induction n as [|n IH]; intros s Hlen; simpl.
  - destruct s; [|simpl in Hlen; lia].
    apply dropOne_None. intros p Hp.
    destruct p; [|reflexivity]. now destruct (Hne _ Hp).
  - destruct (dropOne pats s) as [s'|] eqn:E; [|exact E].
    apply IH. destruct (dropOne_Some _ _ _ E) as (p & Hp & ->).
    rewrite length_app in Hlen. specialize (Hne _ Hp).
    destruct p; [congruence|]. simpl in Hlen. lia.
Qed.

Lemma trimLoop_fixed (n : nat) (s : list ascii) :
  dropOne pats s = None -> trimLoop pats n s = s.
Proof. intros E. destruct n; simpl; [reflexivity|]. now rewrite E. Qed.

Lemma trimLoop_suffix (n : nat) (s : list ascii) :
  exists pre, s = pre ++ trimLoop pats n s.
Proof.
  revert s. induction n as [|n IH]; intros s; simpl.
  - now exists [].
  - destruct (dropOne pats s) as [s'|] eqn:E; [|now exists []].
    destruct (dropOne_Some _ _ _ E) as (p & _ & ->).
    destruct (IH s') as [pre Hpre]. exists (p ++ pre).
    rewrite <- app_assoc. now f_equal.
Qed.

End Loop.

Lemma spaces_nonempty : Forall (fun p : list ascii => p <> []) spaces.
Proof. repeat constructor; discriminate. Qed.

Lemma rev_spaces_nonempty :
  Forall (fun p : list ascii => p <> []) (map (@rev ascii) spaces).
Proof. repeat constructor; discriminate. Qed.

Lemma TrimLeft_clean (s : list ascii) : dropOne spaces (TrimLeft s) = None.
Proof. apply trimLoop_clean; [apply spaces_nonempty|reflexivity]. Qed.

Lemma TrimRight_clean (s : list ascii) :
  dropOne (map (@rev ascii) spaces) (rev (TrimRight s)) = None.
Proof.
  unfold TrimRight. rewrite rev_involutive.
  apply trimLoop_clean; [apply rev_spaces_nonempty|now rewrite length_rev].
Qed.

Lemma TrimRight_prefix (s : list ascii) : exists post, s = TrimRight s ++ post.
Proof.
  unfold TrimRight.
  destruct (trimLoop_suffix (map (@rev ascii) spaces) (length s) (rev s)) as [pre Hpre].
  exists (rev pre). rewrite <- rev_app_distr, <- Hpre. now rewrite rev_involutive.
Qed.

Lemma TrimLeft_fixed (s : list ascii) : dropOne spaces s = None -> TrimLeft s = s.
Proof. apply trimLoop_fixed. Qed.

Lemma TrimRight_fixed (s : list ascii) :
  dropOne (map (@rev ascii) spaces) (rev s) = None -> TrimRight s = s.
Proof.
  intros E. unfold TrimRight. rewrite trimLoop_fixed by exact E.
  apply rev_involutive.
Qed.

(** Trimming twice is trimming once. *)
Lemma TrimSpace_idem (s : string) : TrimSpace (TrimSpace s) = TrimSpace s.
Proof.
  unfold TrimSpace. rewrite list_ascii_of_string_of_list_ascii.
  set (t := TrimLeft (list_ascii_of_string s)).
  assert (dropOne spaces (TrimRight t) = None) as Hl.
  { destruct (TrimRight_prefix t) as [post Hpost].
    apply dropOne_None_prefix with (v := post). rewrite <- Hpost.
    apply TrimLeft_clean. }
  rewrite (TrimLeft_fixed _ Hl).
  now rewrite (TrimRight_fixed _ (TrimRight_clean t)).
Qed.

Lemma TrimSpace_empty : TrimSpace "" = "".
Proof. reflexivity. Qed.

(** A trimmed string is its own trimming, so a non-empty one is not blank. *)
Lemma TrimSpace_result_not_blank (s : string) :
  TrimSpace s <> "" -> TrimSpace (TrimSpace s) <> "".
Proof. now rewrite TrimSpace_idem. Qed.

(** The functions on sample inputs: ASCII blanks, a no-break space
    (U+00A0) and an ideographic space (U+3000) are trimmed, a lone
    continuation byte is not. *)
Example TrimSpace_ascii : TrimSpace "  a b 	
" = "a b".
Proof. reflexivity. Qed.

Example TrimSpace_unicode :
  TrimSpace (String "194" (String "160" (String "x"
               (String "227" (String "128" (String "128" "")))))) = "x" /\
  TrimSpace (String "160" "x") = String "160" "x".
Proof. split; reflexivity. Qed.

Example ToLower_ascii : @ToLower samples.noTables "DeepSeek" = "deepseek".
Proof. reflexivity. Qed.

Example Split_lines : Split "a.go
b.go
" "010" = ["a.go"; "b.go"; ""].
Proof. reflexivity. Qed.

Example Contains_message :
  Contains "fatal: not a git repository (or any parent)" "not a git repository" = true.
Proof. reflexivity. Qed.

End strings_facts.

(** ** Configuration loading *)

Module config_facts.
Import config props samples.

Lemma has_providers (cfg : Config) :
  (0 <? Z.of_nat (size (Providers cfg))) = true <-> Providers cfg <> ∅.
Proof.
  rewrite Z.ltb_lt, <- (map_size_empty_iff (Providers cfg)). lia.
Qed.

Lemma eqb_empty (s : string) : String.eqb s "" = true <-> s = "".
Proof. apply String.eqb_eq. Qed.

Lemma selectProfile_fails_iff (configPath : string) (cfg : Config) :
  is_Ok (selectProfile configPath cfg) = false <-> rejected cfg.
Proof.
  unfold selectProfile, rejected.
  destruct (0 <? Z.of_nat (size (Providers cfg))) eqn:Hsz.
  - apply has_providers in Hsz.
    destruct (String.eqb_spec (Provider cfg) "") as [Hp|Hp]; simpl.
    { split; [intros _; left; auto|reflexivity]. }
    destruct (Providers cfg !! Provider cfg) as [p|] eqn:Hl; simpl.
    2:{ split; [intros _; left; auto|reflexivity]. }
    destruct (String.eqb_spec (ProviderConfig.APIKey p) "") as [Hk|Hk]; simpl.
    { split; [intros _; left; eauto 6|reflexivity]. }
    split; [discriminate|].
    intros [(_ & [?|[?|(q & [= <-] & ?)]])|(? & _)]; congruence.
  - assert (Providers cfg = ∅) as He.
    { destruct (decide (Providers cfg = ∅)) as [|Hne]; [assumption|].
      apply has_providers in Hne. congruence. }
    destruct (String.eqb_spec (APIKey cfg) "") as [Hk|Hk]; simpl.
    { split; [intros _; right; auto|reflexivity]. }
    split; [discriminate|].
    intros [(? & _)|(_ & ?)]; congruence.
Qed.

Lemma selectProfile_flattens (configPath : string) (cfg cfg' : Config) :
  selectProfile configPath cfg = Ok cfg' ->
  Providers cfg <> ∅ ->
  exists p, Providers cfg !! Provider cfg = Some p /\
    APIKey cfg' = ProviderConfig.APIKey p /\
    BaseURL cfg' = ProviderConfig.BaseURL p /\
    Model cfg' = ProviderConfig.Model p.
Proof.
  unfold selectProfile. intros Hs Hne.
  apply has_providers in Hne. rewrite Hne in Hs.
  destruct (String.eqb (Provider cfg) ""); [discriminate|].
  destruct (Providers cfg !! Provider cfg) as [p|]; [|discriminate].
  destruct (String.eqb (ProviderConfig.APIKey p) ""); [discriminate|].
  injection Hs as <-. exists p. auto.
Qed.

Section Load.
Context `{Viper}.

(** C1. Once the file has been read and decoded into [cfg], [Load] fails
    exactly when the providers map is non-empty and the default provider
    name is empty, or is no key of the map, or names a profile with an
    empty api key, or when the map is empty and the flat api key is empty;
    and a successful load with a non-empty map returns the selected
    profile's api key, base URL and model in the flat fields. *)
Theorem Load_fails_exactly_when (home : string) (cfg : Config) :
  UserHomeDir = Ok home ->
  ReadInConfig (Join home ".review-go.yaml") = None ->
  Unmarshal (Join home ".review-go.yaml") = Ok cfg ->
  (is_Ok Load = false <-> rejected cfg) /\
  (forall cfg', Load = Ok cfg' -> Providers cfg <> ∅ ->
     exists p, Providers cfg !! Provider cfg = Some p /\
       APIKey cfg' = ProviderConfig.APIKey p /\
       BaseURL cfg' = ProviderConfig.BaseURL p /\
       Model cfg' = ProviderConfig.Model p).
Proof.
  intros Hhome Hread Hdec. unfold Load. rewrite Hhome, Hread, Hdec. split.
  - apply selectProfile_fails_iff.
  - intros cfg'. apply selectProfile_flattens.
Qed.

End Load.

Lemma Load_fails_exactly_when_witness :
  (is_Ok (@Load (homeOf twoProfiles)) = false <-> rejected twoProfiles) /\
  (forall cfg', @Load (homeOf twoProfiles) = Ok cfg' -> Providers twoProfiles <> ∅ ->
     exists p, Providers twoProfiles !! Provider twoProfiles = Some p /\
       APIKey cfg' = ProviderConfig.APIKey p /\
       BaseURL cfg' = ProviderConfig.BaseURL p /\
       Model cfg' = ProviderConfig.Model p).
Proof.
  apply (@Load_fails_exactly_when (homeOf twoProfiles) "/home/dev" twoProfiles);
    reflexivity.
Defined.

Example Load_twoProfiles :
  @Load (homeOf twoProfiles) =
  Ok {| Provider := "deepseek"; Providers := Providers twoProfiles;
        APIKey := "sk-1"; BaseURL := ""; Model := "deepseek-chat" |}.
Proof. vm_compute. reflexivity. Qed.

End config_facts.

(** ** Provider resolution and the chat call *)

Module ai_facts.
Import strings strings_facts ai props samples.

Lemma eqb_false_iff (s t : string) : String.eqb s t = false <-> s <> t.
Proof. apply String.eqb_neq. Qed.

Lemma isQwen_test (name : string) :
  String.eqb name "qwen" || String.eqb name "tongyi"
  || String.eqb name "ali" || String.eqb name "aliyun" = true <-> isQwen name.
Proof.
  unfold isQwen. rewrite !orb_true_iff, !String.eqb_eq. tauto.
Qed.

(** What the [switch] does, case by case. *)
Lemma fillDefaults_cases (name b m : string) :
  let b' := fst (fillDefaults name b m) in
  let m' := snd (fillDefaults name b m) in
  (b <> "" -> b' = b) /\
  (m <> "" -> m' = m) /\
  (name = "deepseek" ->
     (b = "" -> b' = "https://api.deepseek.com") /\
     (m = "" -> m' = "deepseek-coder")) /\
  (isQwen name ->
     (b = "" -> b' = "https://dashscope.aliyuncs.com/compatible-mode/v1") /\
     (m = "" -> m' = "qwen-turbo")) /\
  (name = "openai" \/ name = "" -> b' = b /\ (m = "" -> m' = defaultModel)) /\
  (name <> "deepseek" -> ~ isQwen name -> name <> "openai" -> name <> "" ->
     b' = b /\ (m = "" -> m' = defaultModel)).
Proof.
  unfold fillDefaults.
  destruct (String.eqb_spec name "deepseek") as [Hd|Hd].
  { subst name. simpl.
    destruct (String.eqb_spec b ""), (String.eqb_spec m ""); simpl;
      unfold isQwen; intuition congruence. }
  destruct (String.eqb name "qwen" || String.eqb name "tongyi"
            || String.eqb name "ali" || String.eqb name "aliyun") eqn:Hq.
  { apply isQwen_test in Hq.
    assert (name <> "openai" /\ name <> "") as [? ?]
      by (destruct Hq as [-> | [-> | [-> | ->]]]; split; discriminate).
    destruct (String.eqb_spec b ""), (String.eqb_spec m ""); simpl;
      intuition congruence. }
  assert (~ isQwen name) as Hnq
    by (intros Hq'; apply isQwen_test in Hq'; congruence).
  destruct (String.eqb name "openai" || String.eqb name "");
    destruct (String.eqb_spec m ""); simpl; intuition congruence.
Qed.

Lemma fillDefaults_idem (name b m : string) :
  fillDefaults name (fst (fillDefaults name b m)) (snd (fillDefaults name b m))
  = fillDefaults name b m.
Proof.
  unfold fillDefaults.
  destruct (String.eqb name "deepseek").
  { destruct (String.eqb_spec b "") as [->|Hb], (String.eqb_spec m "") as [->|Hm];
      simpl; rewrite ?(proj2 (eqb_false_iff _ _) Hb), ?(proj2 (eqb_false_iff _ _) Hm);
      reflexivity. }
  destruct (String.eqb name "qwen" || String.eqb name "tongyi"
            || String.eqb name "ali" || String.eqb name "aliyun").
  { destruct (String.eqb_spec b "") as [->|Hb], (String.eqb_spec m "") as [->|Hm];
      simpl; rewrite ?(proj2 (eqb_false_iff _ _) Hb), ?(proj2 (eqb_false_iff _ _) Hm);
      reflexivity. }
  destruct (String.eqb name "openai" || String.eqb name "");
    destruct (String.eqb_spec m "") as [->|Hm]; simpl;
    rewrite ?(proj2 (eqb_false_iff _ _) Hm); reflexivity.
Qed.

(** Filling trimmed values gives trimmed values: every default is free of
    surrounding white space. *)
Lemma fillDefaults_trimmed (name b m : string) :
  TrimSpace b = b -> TrimSpace m = m ->
  TrimSpace (fst (fillDefaults name b m)) = fst (fillDefaults name b m) /\
  TrimSpace (snd (fillDefaults name b m)) = snd (fillDefaults name b m).
Proof.
  intros Hb Hm. unfold fillDefaults, defaultModel.
  destruct (String.eqb name "deepseek");
    [|destruct (String.eqb name "qwen" || String.eqb name "tongyi"
                || String.eqb name "ali" || String.eqb name "aliyun");
      [|destruct (String.eqb name "openai" || String.eqb name "")]];
    destruct (String.eqb b ""), (String.eqb m ""); simpl; split;
    solve [assumption | reflexivity].
Qed.

(** The model [fillDefaults] returns is never empty. *)
Lemma fillDefaults_model_set (name b m : string) :
  String.eqb (snd (fillDefaults name b m)) "" = false.
Proof.
  unfold fillDefaults, defaultModel.
  destruct (String.eqb name "deepseek");
    [|destruct (String.eqb name "qwen" || String.eqb name "tongyi"
                || String.eqb name "ali" || String.eqb name "aliyun");
      [|destruct (String.eqb name "openai" || String.eqb name "")]];
    destruct (String.eqb m "") eqn:E; simpl; solve [reflexivity | exact E].
Qed.

Section Resolution.
Context `{Unicode}.

(** C8. Resolving an already resolved (baseURL, model) pair under the same
    provider name gives the pair back. *)
Theorem resolveDefaults_idempotent (cfg : config.Config) :
  resolveDefaults
    (config.mkConfig (config.Provider cfg) (config.Providers cfg) (config.APIKey cfg)
       (fst (resolveDefaults cfg)) (snd (resolveDefaults cfg)))
  = resolveDefaults cfg.
Proof.
  unfold resolveDefaults; simpl.
  set (name := ToLower (TrimSpace (config.Provider cfg))).
  destruct (fillDefaults_trimmed name (TrimSpace (config.BaseURL cfg))
              (TrimSpace (config.Model cfg))) as [Hb Hm];
    try apply TrimSpace_idem.
  rewrite Hb, Hm. apply fillDefaults_idem.
Qed.

Context {W : Type} `{Backend W}.

Lemma NewOpenAICompatibleProvider_trimmed (b k m : string) :
  TrimSpace k = k -> k <> "" -> TrimSpace b = b -> TrimSpace m = m -> m <> "" ->
  NewOpenAICompatibleProvider b k m =
  Ok (Some (mkProvider
    (Some (mkClient (mkClientConfig k (if String.eqb b "" then openaiAPIURLv1 else b))))
    m)).
Proof.
  intros Hk Hk' Hb Hm Hm'. unfold NewOpenAICompatibleProvider, DefaultConfig.
  rewrite Hk, Hb, Hm.
  rewrite (proj2 (eqb_false_iff k "") Hk'), (proj2 (eqb_false_iff m "") Hm').
  destruct (String.eqb b ""); reflexivity.
Qed.

(** C2, as the code has it. Resolution fails exactly when the trimmed api
    key is empty. Otherwise the trimmed, lowered provider name selects the
    defaults, and a field counts as unset when it is blank: a base URL or
    model that is not blank is kept with its surrounding white space
    removed and is never replaced by a default; deepseek, and qwen, tongyi,
    ali and aliyun, fill an unset base URL and model with their own
    defaults; openai and the empty name leave an unset base URL empty and
    fill an unset model with the global default; any other name leaves the
    trimmed base URL as it is and fills an unset model with the same global
    default. *)
Theorem resolve_fills_unset_fields (cfg : config.Config) :
  let key := TrimSpace (config.APIKey cfg) in
  let b := TrimSpace (config.BaseURL cfg) in
  let m := TrimSpace (config.Model cfg) in
  let name := ToLower (TrimSpace (config.Provider cfg)) in
  (is_Ok (resolve cfg) = false <-> key = "") /\
  (is_Ok (NewProvider cfg) = false <-> key = "") /\
  (key <> "" -> exists b' m',
     resolve cfg = Ok (b', key, m') /\
     NewProvider cfg =
       Ok (Some (mkProvider
         (Some (mkClient
            (mkClientConfig key (if String.eqb b' "" then openaiAPIURLv1 else b'))))
         m')) /\
     (b <> "" -> b' = b) /\
     (m <> "" -> m' = m) /\
     (name = "deepseek" ->
        (b = "" -> b' = "https://api.deepseek.com") /\
        (m = "" -> m' = "deepseek-coder")) /\
     (isQwen name ->
        (b = "" -> b' = "https://dashscope.aliyuncs.com/compatible-mode/v1") /\
        (m = "" -> m' = "qwen-turbo")) /\
     (name = "openai" \/ name = "" -> b' = b /\ (m = "" -> m' = defaultModel)) /\
     (name <> "deepseek" -> ~ isQwen name -> name <> "openai" -> name <> "" ->
        b' = b /\ (m = "" -> m' = defaultModel))).
Proof.
  intros key b m name.
  pose proof (fillDefaults_cases name b m) as Hcases.
  destruct (fillDefaults_trimmed name b m) as [Hb' Hm'];
    try apply TrimSpace_idem.
  pose proof (fillDefaults_model_set name b m) as Hset.
  assert (resolve cfg =
            if String.eqb key "" then Err (errors_New "配置中的 api_key 不能为空")
            else Ok (fst (fillDefaults name b m), key, snd (fillDefaults name b m)))
    as Hres.
  { unfold resolve, resolveDefaults. fold key b m name.
    destruct (String.eqb key ""); [reflexivity|].
    now destruct (fillDefaults name b m). }
  assert (key <> "" ->
          NewProvider cfg =
            Ok (Some (mkProvider
              (Some (mkClient (mkClientConfig key
                 (if String.eqb (fst (fillDefaults name b m)) ""
                  then openaiAPIURLv1 else fst (fillDefaults name b m)))))
              (snd (fillDefaults name b m))))) as Hnew.
  { intros Hk. unfold NewProvider. rewrite Hres.
    rewrite (proj2 (eqb_false_iff key "") Hk).
    apply NewOpenAICompatibleProvider_trimmed; auto.
    - apply TrimSpace_idem.
    - now apply eqb_false_iff. }
  split; [|split].
  - rewrite Hres. destruct (String.eqb_spec key ""); simpl; split; congruence.
  - destruct (String.eqb_spec key "") as [Hk|Hk].
    + unfold NewProvider. rewrite Hres, Hk. simpl. tauto.
    + rewrite (Hnew Hk). simpl. split; congruence.
  - intros Hk. exists (fst (fillDefaults name b m)), (snd (fillDefaults name b m)).
    split; [|split; [exact (Hnew Hk)|exact Hcases]].
    rewrite Hres. now rewrite (proj2 (eqb_false_iff key "") Hk).
Qed.

(** C6, as the code has it. With an initialised provider the call fails
    exactly when the prompt is blank, the transport fails, the response has
    no choice, or the text of its first choice is blank; on success it
    returns the trimmed text of the first choice, which is not empty. *)
Theorem Chat_fails_exactly_when (c : Client) (model prompt : string) (w : W) :
  let p := Some (mkProvider (Some c) model) in
  let req := mkRequest model defaultTemperature
               [mkMessage ChatMessageRoleUser (TrimSpace prompt)] in
  let sent := fst (CreateChatCompletion c req w) in
  (is_Ok (fst (OpenAICompatibleProvider_Chat p prompt w)) = false <->
     TrimSpace prompt = "" \/
     (exists e, sent = Err e) \/
     (exists resp, sent = Ok resp /\ Choices resp = []) \/
     (exists resp first rest, sent = Ok resp /\ Choices resp = first :: rest /\
        TrimSpace (Content (Message first)) = "")) /\
  (forall reply, fst (OpenAICompatibleProvider_Chat p prompt w) = Ok reply ->
     TrimSpace prompt <> "" /\
     exists resp first rest, sent = Ok resp /\ Choices resp = first :: rest /\
       reply = TrimSpace (Content (Message first)) /\ reply <> "").
Proof.
  intros p req sent. unfold OpenAICompatibleProvider_Chat; simpl.
  destruct (String.eqb_spec (TrimSpace prompt) "") as [Hp|Hp]; simpl.
  { split; [tauto|discriminate]. }
  fold req. subst sent.
  destruct (CreateChatCompletion c req w) as [[resp|e] w']; simpl.
  2:{ split; [split; eauto|discriminate]. }
  destruct (Choices resp) as [|first rest] eqn:Hch; simpl.
  { split; [split; eauto 6|discriminate]. }
  destruct (String.eqb_spec (TrimSpace (Content (Message first))) "") as [Hc|Hc]; simpl.
  { split; [split; eauto 10|discriminate]. }
  split.
  - split; [discriminate|].
    intros [?|[(e & ?)|[(r & [= <-] & ?)|(r & f & t & [= <-] & Hr & ?)]]];
      congruence.
  - intros reply [= <-]. split; [assumption|]. exists resp, first, rest. auto.
Qed.

End Resolution.

(** A name typed in capitals and padded with blanks selects the DeepSeek
    defaults; the client is built on them. *)
Example NewProvider_DeepSeek :
  @NewProvider World playBackend noTables
    (config.mkConfig " DeepSeek " ∅ " sk-1 " "" "") =
  Ok (Some (mkProvider
    (Some (mkClient (mkClientConfig "sk-1" "https://api.deepseek.com")))
    "deepseek-coder")).
Proof. vm_compute. reflexivity. Qed.

(** C2, as stated, fails on a configured base URL with surrounding white
    space: the provider name is not a known one, yet the resolved base URL
    is not the configured string. *)
Lemma resolve_trims_the_configured_baseURL :
  let cfg := config.mkConfig "custom" ∅ "sk-1" " http://localhost:8080/v1 " "m1" in
  @ToLower noTables (TrimSpace (config.Provider cfg)) = "custom" /\
  @resolve noTables cfg = Ok ("http://localhost:8080/v1", "sk-1", "m1") /\
  config.BaseURL cfg <> "http://localhost:8080/v1".
Proof. vm_compute. repeat split. discriminate. Qed.

(** C6, as stated, fails on a response whose second choice has text while
    its first is blank: the call is not treated as successful. *)
Lemma Chat_reads_only_the_first_choice :
  let resp := mkResponse [mkChoice (mkMessage "assistant" "  ");
                          mkChoice (mkMessage "assistant" "LGTM")] in
  (exists choice, In choice (Choices resp) /\
     TrimSpace (Content (Message choice)) = "LGTM") /\
  @OpenAICompatibleProvider_Chat World playBackend reviewer "review this"
    (mkWorld [] [Ok resp])
  = (Err (errors_New "LLM 返回的内容为空"), mkWorld [] []).
Proof.
  split.
  - eexists. split; [right; left; reflexivity|reflexivity].
  - vm_compute. reflexivity.
Qed.

End ai_facts.

(** ** The configuration commands *)

Module cmd_facts.
Import cmd props samples.

(** What [setKeyCmd] makes of a document with no key in it. *)
Lemma patchKey_fresh (apiKey provider : string) :
  provider <> "" ->
  patchKey apiKey provider (Some ∅) =
  Some {[ "provider" := VString provider;
          "providers" := VMap {[ provider :=
             VMap (knownDefaults provider {[ "api_key" := VString apiKey ]}) ]} ]}.
Proof.
  intros Hp. unfold patchKey.
  rewrite (proj2 (String.eqb_neq provider "") Hp). reflexivity.
Qed.

Lemma knownDefaults_fresh (apiKey provider : string) :
  (hasEndpoint provider ->
     knownDefaults provider {[ "api_key" := VString apiKey ]} =
     {[ "model" := VString (snd (ai.fillDefaults provider "" ""));
        "base_url" := VString (fst (ai.fillDefaults provider "" ""));
        "api_key" := VString apiKey ]}) /\
  (provider = "openai" ->
     knownDefaults provider {[ "api_key" := VString apiKey ]} =
     {[ "model" := VString ai.defaultModel; "api_key" := VString apiKey ]}).
Proof.
  split.
  - intros [-> | [-> | [-> | [-> | ->]]]]; reflexivity.
  - intros ->. reflexivity.
Qed.

(** An entry that has a base URL keeps its base URL and model. *)
Lemma knownDefaults_keeps (provider : string) (entry : gmap string Value) :
  isNil (index (Some entry) "base_url") = false ->
  knownDefaults provider entry = entry.
Proof. intros Hset. unfold knownDefaults. now rewrite Hset. Qed.

Lemma index_insert_ne (g : gmap string Value) (k k' : string) (v : Value) :
  k <> k' -> index (Some (<[k := v]> g)) k' = index (Some g) k'.
Proof. intros Hne. unfold index. now rewrite lookup_insert_ne. Qed.

(** A default provider that is already set is kept. *)
Lemma patchKey_keeps_default (apiKey provider current : string)
  (doc : gmap string Value) :
  provider <> "" -> current <> "" ->
  doc !! "provider" = Some (VString current) ->
  exists doc', patchKey apiKey provider (Some doc) = Some doc' /\
    doc' !! "provider" = Some (VString current).
Proof.
  intros Hp Hc Hdoc. unfold patchKey.
  rewrite (proj2 (String.eqb_neq provider "") Hp). simpl negb. cbv iota.
  set (start := if isNil (index (Some doc) "providers")
                then assign (Some doc) "providers" (VMap ∅) else Some doc).
  assert (exists c, start = Some c /\ c !! "provider" = Some (VString current))
    as (c & -> & Hcur).
  { subst start. destruct (isNil (index (Some doc) "providers")); simpl.
    - eexists. split; [reflexivity|]. now rewrite lookup_insert_ne.
    - eauto. }
  cbn [mbind option_bind].
  rewrite !index_insert_ne by discriminate.
  assert (index (Some c) "provider" = VString current) as ->
    by (unfold index; now rewrite Hcur).
  simpl. rewrite (proj2 (String.eqb_neq current "") Hc).
  eexists. split; [reflexivity|].
  now rewrite lookup_insert_ne by discriminate.
Qed.

(** Writing into the nil map panics, whichever way [set-key] is run. *)
Lemma patchKey_nil_map (apiKey provider : string) :
  patchKey apiKey provider None = None.
Proof. unfold patchKey. now destruct (String.eqb provider ""). Qed.

Section Commands.
Context `{OS}.

Lemma setKey_on_fresh_document (apiKey provider home : string) :
  UserHomeDir = Ok home ->
  (Stat (Join home ".review-go.yaml") <> None \/
   exists data, Stat (Join home ".review-go.yaml") = None /\
     ReadFile (Join home ".review-go.yaml") = Ok data /\
     Unmarshal data = Ok (Some ∅)) ->
  setKeyCmd apiKey provider =
  match patchKey apiKey provider (Some ∅) with
  | None => Panic
  | Some config => save (Join home ".review-go.yaml") config
  end.
Proof.
  intros Hhome Hfile. unfold setKeyCmd. rewrite Hhome.
  destruct Hfile as [Hmiss|(data & Hst & Hrd & Hdec)].
  - destruct (Stat (Join home ".review-go.yaml")); [reflexivity|congruence].
  - now rewrite Hst, Hrd, Hdec.
Qed.

(** What [set-key] does for the names it knows as typed. On a missing file,
    or one that decodes to a mapping with no key, [set-key K --provider P]
    saves a document whose
    default provider is [P] and whose only profile is [P] with api key [K];
    when [P] is, byte for byte, deepseek, qwen, tongyi, ali or aliyun the
    profile also holds that name's default base URL and model, and when [P]
    is openai it holds the global default model and no base URL. *)
Theorem setKey_fills_known_defaults (apiKey provider home data : string) :
  UserHomeDir = Ok home ->
  (Stat (Join home ".review-go.yaml") <> None \/
   exists data, Stat (Join home ".review-go.yaml") = None /\
     ReadFile (Join home ".review-go.yaml") = Ok data /\
     Unmarshal data = Ok (Some ∅)) ->
  hasEndpoint provider \/ provider = "openai" ->
  let profile : gmap string Value :=
    if String.eqb provider "openai"
    then {[ "model" := VString ai.defaultModel; "api_key" := VString apiKey ]}
    else {[ "model" := VString (snd (ai.fillDefaults provider "" ""));
            "base_url" := VString (fst (ai.fillDefaults provider "" ""));
            "api_key" := VString apiKey ]} in
  let config : gmap string Value :=
    {[ "provider" := VString provider;
       "providers" := VMap {[ provider := VMap profile ]} ]} in
  Marshal config = Ok data ->
  setKeyCmd apiKey provider =
  Done (Some (Join home ".review-go.yaml", config))
       (match WriteFile (Join home ".review-go.yaml") data with
        | Some err => Some (Errorf "写入配置文件失败: %w" [] (Some err))
        | None => None
        end).
Proof.
  intros Hhome Hfile Hname profile config Hm.
  rewrite (setKey_on_fresh_document _ _ _ Hhome Hfile).
  assert (provider <> "") as Hne
    by (destruct Hname as [[-> | [-> | [-> | [-> | ->]]]] | ->]; discriminate).
  rewrite (patchKey_fresh _ _ Hne).
  assert (knownDefaults provider {[ "api_key" := VString apiKey ]} = profile) as ->.
  { destruct (knownDefaults_fresh apiKey provider) as [Hend Hopen].
    subst profile. destruct (String.eqb_spec provider "openai") as [Ho|Ho].
    - auto.
    - destruct Hname as [He|?]; [auto|congruence]. }
  fold config. unfold save. rewrite Hm.
  now destruct (WriteFile (Join home ".review-go.yaml") data).
Qed.

(** C7. [set-provider P] fails, naming what is missing, and writes nothing
    when the file is missing, when the document has no providers mapping,
    or when that mapping has no key [P]; otherwise it saves the document
    with its [provider] field set to [P] and nothing else changed. *)
Theorem setProvider_needs_the_profile (provider home : string) :
  UserHomeDir = Ok home ->
  let path := Join home ".review-go.yaml" in
  (Stat path <> None ->
     setProviderCmd provider =
     Done None (Some (Errorf "配置文件不存在，请先使用 'config set-key' 设置 API Key" [] None))) /\
  (forall data config, Stat path = None -> ReadFile path = Ok data ->
     Unmarshal data = Ok config ->
     ((forall providers, index config "providers" <> VMap providers) ->
        setProviderCmd provider =
        Done None (Some (Errorf
          "未找到多提供商配置，请先使用 'config set-key --provider %s' 设置该提供商的 API Key"
          [provider] None))) /\
     (forall providers, index config "providers" = VMap providers ->
        providers !! provider = None ->
        setProviderCmd provider =
        Done None (Some (Errorf
          "提供商 '%s' 不存在，请先使用 'config set-key --provider %s' 设置该提供商的 API Key"
          [provider; provider] None))) /\
     (forall providers, index config "providers" = VMap providers ->
        providers !! provider <> None ->
        exists doc, config = Some doc /\
          setProviderCmd provider = save path (<["provider" := VString provider]> doc) /\
          (forall out, Marshal (<["provider" := VString provider]> doc) = Ok out ->
             exists err, setProviderCmd provider =
               Done (Some (path, <["provider" := VString provider]> doc)) err) /\
          (forall key, key <> "provider" ->
             (<["provider" := VString provider]> doc) !! key = doc !! key))).
Proof.
  intros Hhome path. unfold setProviderCmd. rewrite Hhome. fold path. split.
  - intros Hmiss. destruct (Stat path); [reflexivity|congruence].
  - intros data config Hst Hrd Hdec. rewrite Hst, Hrd, Hdec.
    split; [|split].
    + intros Hno. destruct (index config "providers") as [| |ps|] eqn:E;
        try reflexivity.
      now destruct (Hno ps).
    + intros ps Hps Hkey. now rewrite Hps, Hkey.
    + intros ps Hps Hkey. rewrite Hps.
      destruct (ps !! provider) eqn:E; [clear Hkey|congruence].
      destruct config as [doc|]; [|discriminate].
      exists doc. simpl. repeat split.
      * intros out Hout. unfold save. rewrite Hout.
        destruct (WriteFile path out); eauto.
      * intros key Hk. now apply lookup_insert_ne.
Qed.

End Commands.

(** The scenario of the specification: [set-key ABC123 --provider deepseek]
    with no configuration file. *)
Lemma setKey_fills_known_defaults_witness :
  @setKeyCmd (machine None) "ABC123" "deepseek" =
  Done (Some ("/home/dev/.review-go.yaml",
              {[ "provider" := VString "deepseek";
                 "providers" := VMap {[ "deepseek" := VMap
                    {[ "model" := VString "deepseek-coder";
                       "base_url" := VString "https://api.deepseek.com";
                       "api_key" := VString "ABC123" ]} ]} ]}))
       None.
Proof.
  apply (@setKey_fills_known_defaults (machine None) "ABC123" "deepseek"
           "/home/dev" "(yaml)").
  - reflexivity.
  - left. discriminate.
  - left. left. reflexivity.
  - reflexivity.
Defined.

(** A name the resolver knows but typed in another case: [NewProvider]
    reads DeepSeek as deepseek, [set-key] stores the key and fills neither
    base URL nor model. *)
Lemma setKey_compares_names_exactly :
  @strings.ToLower noTables (strings.TrimSpace "DeepSeek") = "deepseek" /\
  @setKeyCmd (machine None) "ABC123" "DeepSeek" =
  Done (Some ("/home/dev/.review-go.yaml",
              {[ "provider" := VString "DeepSeek";
                 "providers" := VMap {[ "DeepSeek" := VMap
                    {[ "api_key" := VString "ABC123" ]} ]} ]}))
       None.
Proof. split; vm_compute; reflexivity. Qed.

Lemma setProvider_needs_the_profile_witness :
  @setProviderCmd (machine (Some (Ok (Some oneProfile)))) "deepseek" =
  Done (Some ("/home/dev/.review-go.yaml",
              <["provider" := VString "deepseek"]> oneProfile)) None /\
  @setProviderCmd (machine (Some (Ok (Some oneProfile)))) "qwen" =
  Done None (Some (Errorf
    "提供商 '%s' 不存在，请先使用 'config set-key --provider %s' 设置该提供商的 API Key"
    ["qwen"; "qwen"] None)).
Proof.
  destruct (@setProvider_needs_the_profile (machine (Some (Ok (Some oneProfile))))
              "qwen" "/home/dev" eq_refl) as [_ Hq].
  destruct (Hq "(yaml)" (Some oneProfile) eq_refl eq_refl eq_refl) as (_ & Hq' & _).
  split; [vm_compute; reflexivity|].
  apply (Hq' {[ "deepseek" := VMap {[ "api_key" := VString "sk-1" ]} ]});
    reflexivity.
Defined.

(** C3. [set-key] at the two inputs where it does not save the document
    the specification describes. The table of [NewProvider] reads the name
    DeepSeek as deepseek and fills the DeepSeek base URL and model, while
    [set-key ABC123 --provider DeepSeek] with no configuration file saves
    the key under that name with neither base URL nor model. And
    [set-key ABC123 --provider deepseek] on a file that is there but decodes
    to the nil map, as a file without content does, panics on its first
    assignment and saves nothing. With no file and the name typed in lower
    case the saved document is the specified one. *)
Theorem setKey_at_the_failing_inputs :
  (@strings.ToLower noTables (strings.TrimSpace "DeepSeek") = "deepseek" /\
   ai.fillDefaults "deepseek" "" "" = ("https://api.deepseek.com", "deepseek-coder")) /\
  @setKeyCmd (machine None) "ABC123" "DeepSeek" =
    Done (Some ("/home/dev/.review-go.yaml",
                {[ "provider" := VString "DeepSeek";
                   "providers" := VMap {[ "DeepSeek" := VMap
                      {[ "api_key" := VString "ABC123" ]} ]} ]}))
         None /\
  @setKeyCmd (machine (Some (Ok None))) "ABC123" "deepseek" = Panic /\
  @setKeyCmd (machine None) "ABC123" "deepseek" =
    Done (Some ("/home/dev/.review-go.yaml",
                {[ "provider" := VString "deepseek";
                   "providers" := VMap {[ "deepseek" := VMap
                      {[ "model" := VString "deepseek-coder";
                         "base_url" := VString "https://api.deepseek.com";
                         "api_key" := VString "ABC123" ]} ]} ]}))
         None.
Proof. repeat split; vm_compute; reflexivity. Qed.

End cmd_facts.

(** ** The review run and the interactive session *)

Module ui_facts.
Import strings strings_facts ui props.

Section Session.
Context {W S P : Type} `{Git W} `{ai.LLMProvider W P} `{Terminal S} `{Fmt}.

(** The loop over a list split in two runs the first part, then the second
    on what the first left. *)
Lemma reviewEach_app (provider : P) (l1 l2 : list string)
  (reviews : gmap string string) (w : W) :
  reviewEach provider (l1 ++ l2) reviews w =
  match reviewEach provider l1 reviews w with
  | (Ok reviews', w') => reviewEach provider l2 reviews' w'
  | (Err e, w') => (Err e, w')
  end.
Proof.
  revert reviews w. induction l1 as [|f l1 IH]; intros reviews w; simpl.
  - reflexivity.
  - destruct (getFileStagedDiff f w) as [[diff|e] w1]; [|reflexivity].
    destruct (ai.Chat provider (buildReviewPrompt diff) w1) as [[reply|e] w2];
      [|reflexivity].
    apply IH.
Qed.

(** A message with an error has neither a file list nor reviews. *)
Lemma loadReviewsCmd_error_carries_nothing (provider : option P) (w : W) :
  msg_err (fst (loadReviewsCmd provider w)) = None \/
  (msg_files (fst (loadReviewsCmd provider w)) = None /\
   msg_reviews (fst (loadReviewsCmd provider w)) = None).
Proof.
  unfold loadReviewsCmd. destruct provider as [p|]; [|right; now split].
  destruct (gitops.GetChangedFiles w) as [[files|e] w1]; [|right; now split].
  destruct (Z.of_nat (length files) =? 0); [now left|].
  destruct (reviewEach p files ∅ w1) as [[reviews|e] w2];
    [now left|right; now split].
Qed.

(** A staged file whose diff comes back blank is a failure of that file. *)
Lemma getFileStagedDiff_blank (file out : string) (w w' : W) :
  CombinedOutput ["diff"; "--cached"; "--unified=0"; "--"; file] w = ((out, None), w') ->
  TrimSpace out = "" ->
  getFileStagedDiff file w =
  (Err (Errorf "文件 %s 在暂存区没有 diff 输出" [file] None), w').
Proof.
  intros Hrun Hblank. unfold getFileStagedDiff. rewrite Hrun, Hblank. reflexivity.
Qed.

(** C4. When the files listed before [k] are reviewed and then the diff of
    [k] cannot be fetched, or comes back blank, or the chat call on it
    fails, the message carries the error of that step wrapped with the name
    of [k], and neither a file list nor reviews. *)
Theorem loadReviewsCmd_stops_at_first_failure
  (provider : P) (before after : list string) (k : string)
  (reviews : gmap string string) (w w1 w2 : W) :
  gitops.GetChangedFiles w = (Ok (before ++ k :: after), w1) ->
  reviewEach provider before ∅ w1 = (Ok reviews, w2) ->
  (forall e w3, getFileStagedDiff k w2 = (Err e, w3) ->
     loadReviewsCmd (Some provider) w =
     ({| msg_files := None; msg_reviews := None;
         msg_err := Some (Errorf "获取文件 %s 的 diff 失败：%w" [k] (Some e)) |}, w3)) /\
  (forall out w3,
     CombinedOutput ["diff"; "--cached"; "--unified=0"; "--"; k] w2 = ((out, None), w3) ->
     TrimSpace out = "" ->
     loadReviewsCmd (Some provider) w =
     ({| msg_files := None; msg_reviews := None;
         msg_err := Some (Errorf "获取文件 %s 的 diff 失败：%w" [k]
                      (Some (Errorf "文件 %s 在暂存区没有 diff 输出" [k] None))) |}, w3)) /\
  (forall diff e w3 w4, getFileStagedDiff k w2 = (Ok diff, w3) ->
     ai.Chat provider (buildReviewPrompt diff) w3 = (Err e, w4) ->
     loadReviewsCmd (Some provider) w =
     ({| msg_files := None; msg_reviews := None;
         msg_err := Some (Errorf "审查文件 %s 失败：%w" [k] (Some e)) |}, w4)).
Proof.
  intros Hlist Hbefore.
  assert (forall r, reviewEach provider (k :: after) reviews w2 = (Err (fst r), snd r) ->
            loadReviewsCmd (Some provider) w =
            ({| msg_files := None; msg_reviews := None; msg_err := Some (fst r) |},
             snd r)) as Hstep.
  { intros r Hk. unfold loadReviewsCmd. rewrite Hlist.
    replace (Z.of_nat (length (before ++ k :: after)) =? 0) with false
      by (symmetry; apply Z.eqb_neq; rewrite length_app; simpl; lia).
    now rewrite reviewEach_app, Hbefore, Hk. }
  assert (forall e w3, getFileStagedDiff k w2 = (Err e, w3) ->
     loadReviewsCmd (Some provider) w =
     ({| msg_files := None; msg_reviews := None;
         msg_err := Some (Errorf "获取文件 %s 的 diff 失败：%w" [k] (Some e)) |}, w3))
    as Hdiff.
  { intros e w3 Hd.
    apply (Hstep (Errorf "获取文件 %s 的 diff 失败：%w" [k] (Some e), w3)).
    simpl. now rewrite Hd. }
  split; [exact Hdiff|split].
  - intros out w3 Hrun Hblank. apply Hdiff.
    now apply getFileStagedDiff_blank with (out := out).
  - intros diff e w3 w4 Hd Hc.
    apply (Hstep (Errorf "审查文件 %s 失败：%w" [k] (Some e), w4)).
    simpl. now rewrite Hd, Hc.
Qed.

Lemma len_nonneg {A} (s : option (list A)) : 0 <= len s.
Proof. destruct s; simpl; lia. Qed.

Lemma Update_keeps_cursor_ok (m : Model S P) (msg : Msg) :
  cursor_ok m -> cursor_ok (fst (Update m msg)).
Proof.
  unfold cursor_ok. intros [Hlo Hhi]. destruct msg as [wd ht|tick|msg|key|]; simpl.
  - auto.
  - destruct (loading m); [|auto].
    destruct (spinner_Update (spinner m) tick); simpl; auto.
  - destruct (msg_err msg); simpl; [auto|].
    destruct (0 <? len (msg_files msg)) eqn:Hpos;
      destruct (len (msg_files msg) <=? selected m) eqn:Hge; simpl; split;
      try lia; try assumption; intros Hcount;
      try (apply Z.leb_gt in Hge; lia);
      try (apply Z.ltb_ge in Hpos; lia).
  - destruct (String.eqb key "q" || String.eqb key "ctrl+c"); [simpl; auto|].
    destruct (loading m || bool_decide (err m ≠ None)); [simpl; auto|].
    destruct (String.eqb key "up" || String.eqb key "k").
    { destruct (0 <? selected m) eqn:E; simpl; [|auto].
      apply Z.ltb_lt in E. split; [lia|]. intros Hc. specialize (Hhi Hc). lia. }
    destruct (String.eqb key "down" || String.eqb key "j"); [|simpl; auto].
    destruct (selected m <? len (files m) - 1) eqn:E; simpl; [|auto].
    apply Z.ltb_lt in E. split; lia.
  - auto.
Qed.

(** A successful load puts the cursor inside the list it brings. *)
Lemma Update_loaded_cursor_ok (m : Model S P) (msg : reviewLoadedMsg) :
  msg_err msg = None -> 0 <= selected m ->
  cursor_ok (fst (Update m (ReviewLoaded msg))).
Proof.
  intros Hok Hsel. unfold cursor_ok. simpl. rewrite Hok.
  destruct (0 <? len (msg_files msg)) eqn:Hpos;
    destruct (len (msg_files msg) <=? selected m) eqn:Hge; simpl; split;
    try lia; try assumption; intros Hcount;
    try (apply Z.leb_gt in Hge; lia);
    try (apply Z.ltb_ge in Hpos; lia).
Qed.

Lemma run_keeps_cursor_ok (msgs : list Msg) (m : Model S P) :
  cursor_ok m -> cursor_ok (run m msgs).
Proof.
  revert m. induction msgs as [|msg msgs IH]; intros m Hm; simpl; [assumption|].
  apply IH. now apply Update_keeps_cursor_ok.
Qed.

(** C5. In every state the session reaches, the cursor is not negative and
    is below the file count when there are files; a successful load puts
    it there; the keys up, k, down and j move it by at most one, keep it
    inside the list (up stops at the first entry, down at the last), and
    leave it where it is while loading or after an error. *)
Theorem cursor_stays_in_range (provider : option P) (msgs : list Msg)
  (m : Model S P) (msg : reviewLoadedMsg) (key : string) :
  cursor_ok (run (NewModel provider) msgs) /\
  (msg_err msg = None -> 0 <= selected m ->
     cursor_ok (fst (Update m (ReviewLoaded msg)))) /\
  (key = "up" \/ key = "k" \/ key = "down" \/ key = "j" ->
     let m' := fst (Update m (KeyMsg key)) in
     files m' = files m /\
     Z.abs (selected m' - selected m) <= 1 /\
     (0 <= selected m < len (files m) -> 0 <= selected m' < len (files m)) /\
     (loading m = true \/ err m <> None -> selected m' = selected m) /\
     (loading m = false -> err m = None -> 0 <= selected m < len (files m) ->
        ((key = "up" \/ key = "k") -> selected m' = Z.max 0 (selected m - 1)) /\
        ((key = "down" \/ key = "j") ->
           selected m' = Z.min (len (files m) - 1) (selected m + 1)))).
Proof.
  split; [|split].
  - apply run_keeps_cursor_ok. unfold cursor_ok, NewModel; simpl. lia.
  - apply Update_loaded_cursor_ok.
  - intros Hkey. simpl.
    assert (String.eqb key "q" || String.eqb key "ctrl+c" = false) as ->
      by (destruct Hkey as [-> | [-> | [-> | ->]]]; reflexivity).
    destruct (loading m) eqn:Hload; simpl.
    { repeat split; try lia; try tauto; try discriminate. }
    destruct (decide (err m = None)) as [Herr|Herr].
    2:{ rewrite bool_decide_eq_true_2 by assumption. simpl.
        repeat split; try lia; try tauto; try congruence. }
    rewrite bool_decide_eq_false_2 by (intros Hne; now apply Hne).
    pose proof (Z.ltb_spec 0 (selected m)) as Hup.
    pose proof (Z.ltb_spec (selected m) (len (files m) - 1)) as Hdown.
    destruct Hkey as [-> | [-> | [-> | ->]]]; simpl;
      destruct Hup, Hdown; simpl;
      (split; [reflexivity|]); (split; [lia|]); (split; [lia|]);
      (split; [intros [?|?]; [discriminate|congruence]|]);
      intros _ _ Hin; (split; intros [?|?]; try discriminate; lia).
Qed.


(** Key presses change neither the file list nor the reviews. *)
Lemma Update_key_keeps_results (m : Model S P) (key : string) :
  files (fst (Update m (KeyMsg key))) = files m /\
  reviews (fst (Update m (KeyMsg key))) = reviews m.
Proof.
  simpl.
  destruct (String.eqb key "q" || String.eqb key "ctrl+c"); [now split|].
  destruct (loading m || bool_decide (err m ≠ None)); [now split|].
  destruct (String.eqb key "up" || String.eqb key "k").
  { now destruct (0 <? selected m). }
  destruct (String.eqb key "down" || String.eqb key "j"); [|now split].
  now destruct (selected m <? len (files m) - 1).
Qed.

Lemma run_keys_keeps_results (keys : list string) (m : Model S P) :
  files (run m (map KeyMsg keys)) = files m /\
  reviews (run m (map KeyMsg keys)) = reviews m.
Proof.
  revert m. induction keys as [|key keys IH]; intros m; [now split|].
  change (run m (map KeyMsg (key :: keys)))
    with (run (fst (Update m (KeyMsg key))) (map KeyMsg keys)).
  destruct (IH (fst (Update m (KeyMsg key)))) as [Hf Hr]. rewrite Hf, Hr.
  apply Update_key_keeps_results.
Qed.

(** With the cursor on a file that has a review free of surrounding white
    space, the view shows that review. *)
Lemma selectedReview_shows_review (m : Model S P) (fs : list string)
  (rv : gmap string string) :
  files m = Some fs -> reviews m = Some rv ->
  0 <= selected m < len (files m) ->
  (forall f, f ∈ fs -> exists r, rv !! f = Some r /\ r <> "" /\ TrimSpace r = r) ->
  exists f r, fs !! Z.to_nat (selected m) = Some f /\ rv !! f = Some r /\
    selectedReview m = r.
Proof.
  intros Hf Hr Hsel Hall. unfold selectedReview. rewrite Hf, Hr in *. simpl in *.
  replace ((0 <=? selected m) && (selected m <? Z.of_nat (length fs))) with true
    by (symmetry; apply andb_true_iff; split; [apply Z.leb_le|apply Z.ltb_lt]; lia).
  destruct (fs !! Z.to_nat (selected m)) as [f|] eqn:Hl.
  2:{ apply lookup_ge_None in Hl. lia. }
  destruct (Hall f) as (r & Hrv & Hne & Htrim).
  { apply list_elem_of_lookup. eauto. }
  exists f, r. simpl. rewrite Hrv. simpl. rewrite Htrim.
  rewrite (proj2 (String.eqb_neq r "") Hne). auto.
Qed.

Section Replies.
(** The provider returns replies that are not empty and carry no
    surrounding white space. *)
Hypothesis Chat_trimmed : forall (p : P) prompt w reply w',
  ai.Chat p prompt w = (Ok reply, w') -> reply <> "" /\ TrimSpace reply = reply.

Lemma reviewEach_entries (provider : P) (fs : list string)
  (acc rv : gmap string string) (w w' : W) :
  reviewEach provider fs acc w = (Ok rv, w') ->
  dom rv = dom acc ∪ list_to_set fs /\
  (forall f r, rv !! f = Some r ->
     (f ∈ fs /\ r <> "" /\ TrimSpace r = r) \/ acc !! f = Some r).
Proof using Chat_trimmed.
  revert acc w. induction fs as [|f fs IH]; intros acc w; simpl.
  - intros [= <-]. split; [set_solver|auto].
  - destruct (getFileStagedDiff f w) as [[diff|e] w1]; [|discriminate].
    destruct (ai.Chat provider (buildReviewPrompt diff) w1) as [[reply|e] w2] eqn:Hc;
      [|discriminate].
    intros Hrest. destruct (IH _ _ Hrest) as [Hdom Hval]. split.
    + rewrite Hdom, dom_insert_L. set_solver.
    + intros g r Hg. destruct (Hval g r Hg) as [(Hin & Hgood)|Hacc].
      * left. split; [set_solver|exact Hgood].
      * destruct (decide (f = g)) as [<-|Hne].
        -- rewrite lookup_insert_eq in Hacc. injection Hacc as <-.
           left. split; [set_solver|]. exact (Chat_trimmed _ _ _ _ _ Hc).
        -- rewrite lookup_insert_ne in Hacc by assumption. auto.
Qed.

End Replies.

End Session.

(** The listing has no file twice. *)
Lemma collect_NoDup (lines : list string) (seen : gset string) (fs : list string) :
  NoDup fs -> (forall f, f ∈ fs -> f ∈ seen) ->
  NoDup (gitops.collect lines seen fs).
Proof.
  revert seen fs. induction lines as [|line lines IH]; intros seen fs Hnd Hsub; simpl.
  - assumption.
  - destruct (String.eqb (TrimSpace line) ""); [now apply IH|].
    case_bool_decide as Hin; [now apply IH|].
    apply IH.
    + apply NoDup_app. split; [assumption|]. split.
      * intros f Hf Hf'. apply list_elem_of_singleton in Hf'. subst f. auto.
      * apply NoDup_singleton.
    + intros f Hf. apply elem_of_app in Hf as [Hf|Hf]; [set_solver|].
      apply list_elem_of_singleton in Hf. set_solver.
Qed.

Lemma GetChangedFiles_NoDup {W : Type} `{Git W} (w w' : W) (fs : list string) :
  gitops.GetChangedFiles w = (Ok fs, w') -> NoDup fs.
Proof.
  unfold gitops.GetChangedFiles.
  destruct (CombinedOutput _ w) as [[out err] w1].
  destruct err as [err|].
  - destruct (Is_ErrNotFound err); [discriminate|].
    destruct (Contains _ _); [discriminate|].
    destruct (negb _); discriminate.
  - destruct (String.eqb (TrimSpace out) "").
    + intros [= <- _]. constructor.
    + intros [= <- _]. apply collect_NoDup; [constructor|]. intros f Hf.
      now apply elem_of_nil in Hf.
Qed.

Section OpenAI.
Context {W S : Type} `{Git W} `{ai.Backend W} `{Terminal S} `{Fmt}.
#[local] Existing Instance ai.OpenAICompatible_LLMProvider.

Lemma OpenAI_Chat_trimmed (p : option ai.OpenAICompatibleProvider)
  (prompt : string) (w : W) (reply : string) (w' : W) :
  ai.Chat p prompt w = (Ok reply, w') -> reply <> "" /\ TrimSpace reply = reply.
Proof.
  simpl. unfold ai.OpenAICompatibleProvider_Chat.
  destruct p as [p|]; [|discriminate].
  destruct (ai.client p) as [c|]; [|discriminate].
  destruct (String.eqb (TrimSpace prompt) ""); [discriminate|].
  destruct (ai.CreateChatCompletion _ _ w) as [[resp|e] w1]; [|discriminate].
  destruct (ai.Choices resp) as [|first rest]; [discriminate|].
  destruct (String.eqb_spec (TrimSpace (ai.Content (ai.Message first))) "") as [|Hne];
    [discriminate|].
  intros [= <- _]. split; [assumption|apply TrimSpace_idem].
Qed.

(** C10. A message without error and with a non-empty file list, produced
    with the OpenAI compatible provider, has one review per listed file and
    for no other name; every review is a non-empty string free of
    surrounding white space; so, once the session has taken the message and
    whatever keys are pressed afterwards, the view shows the review of the
    selected file, never the placeholder of a blank review. *)
Theorem loaded_reviews_cover_the_files
  (provider : option ai.OpenAICompatibleProvider) (w w' : W)
  (msg : reviewLoadedMsg) (fs : list string) :
  loadReviewsCmd (Some provider) w = (msg, w') ->
  msg_err msg = None -> msg_files msg = Some fs -> fs <> [] ->
  exists rv, msg_reviews msg = Some rv /\
    dom rv = list_to_set fs /\
    size rv = length fs /\
    (forall f r, rv !! f = Some r -> r <> "" /\ TrimSpace r = r) /\
    (forall (m : Model S (option ai.OpenAICompatibleProvider)) (keys : list string),
       0 <= selected m ->
       let m' := run (fst (Update m (ReviewLoaded msg))) (map KeyMsg keys) in
       exists f r, fs !! Z.to_nat (selected m') = Some f /\ rv !! f = Some r /\
         selectedReview m' = r).
Proof.
  intros Hrun Herr Hfiles Hne. unfold loadReviewsCmd in Hrun.
  destruct (gitops.GetChangedFiles w) as [[listed|e] w1] eqn:Hlist;
    [|injection Hrun as <- _; discriminate].
  destruct (Z.of_nat (length listed) =? 0).
  { injection Hrun as <- _. simpl in Hfiles. congruence. }
  destruct (reviewEach provider listed ∅ w1) as [[rv|e] w2] eqn:Hloop;
    [|injection Hrun as <- _; discriminate].
  injection Hrun as <- _. simpl in Hfiles. injection Hfiles as ->.
  destruct (reviewEach_entries OpenAI_Chat_trimmed _ _ _ _ _ _ Hloop) as [Hdom Hval].
  assert (dom rv = list_to_set fs) as Hdom' by (rewrite Hdom; set_solver).
  assert (forall f r, rv !! f = Some r -> f ∈ fs /\ r <> "" /\ TrimSpace r = r) as Hgood.
  { intros f r Hr. destruct (Hval f r Hr) as [?|Hempty]; [assumption|].
    now rewrite lookup_empty in Hempty. }
  exists rv. split; [reflexivity|]. split; [exact Hdom'|]. split; [|split].
  - rewrite <- size_dom, Hdom'. apply size_list_to_set.
    eapply GetChangedFiles_NoDup, Hlist.
  - intros f r Hr. now destruct (Hgood f r Hr).
  - intros m keys Hsel.
    set (m1 := fst (Update m (ReviewLoaded
           {| msg_files := Some fs; msg_reviews := Some rv; msg_err := None |}))).
    set (m' := run m1 (map KeyMsg keys)). cbv zeta.
    assert (files m1 = Some fs /\ reviews m1 = Some rv /\ loading m1 = false /\
            err m1 = None) as (Hf1 & Hr1 & _ & _).
    { subst m1. simpl.
      destruct ((0 <? Z.of_nat (length fs)) && (Z.of_nat (length fs) <=? selected m));
        simpl; auto. }
    assert (cursor_ok m1) as Hc1.
    { subst m1. now apply Update_loaded_cursor_ok. }
    destruct (run_keys_keeps_results keys m1) as [Hf' Hr'].
    fold m' in Hf', Hr'.
    assert (cursor_ok m') as [Hlo Hhi] by (now apply run_keeps_cursor_ok).
    apply selectedReview_shows_review.
    + congruence.
    + congruence.
    + rewrite Hf', Hf1 in *. simpl in *.
      destruct fs; [congruence|]. simpl in *. lia.
    + intros f Hf. assert (f ∈ dom rv) as Hin by (rewrite Hdom'; set_solver).
      apply elem_of_dom in Hin as [r Hr]. exists r. split; [assumption|].
      now destruct (Hgood f r Hr).
Qed.

End OpenAI.

Section Samples.
Import samples.
#[local] Existing Instances playGit playBackend plainTerminal plainFmt.
#[local] Existing Instance ai.OpenAICompatible_LLMProvider.

(** Two staged files, the second without diff text: the run ends with the
    error of the second file and nothing of the first. *)
Lemma loadReviewsCmd_stops_at_first_failure_witness :
  loadReviewsCmd (Some reviewer) secondDiffBlank =
  ({| msg_files := None; msg_reviews := None;
      msg_err := Some (Errorf "获取文件 %s 的 diff 失败：%w" ["b.go"]
                   (Some (Errorf "文件 %s 在暂存区没有 diff 输出" ["b.go"] None))) |},
   mkWorld [] []).
Proof.
  destruct (loadReviewsCmd_stops_at_first_failure reviewer ["a.go"] [] "b.go"
              {[ "a.go" := "Looks fine." ]} secondDiffBlank
              (mkWorld [("@@ -1 +1 @@
-x
+y", None); ("  ", None)] [answer " Looks fine. "])
              (mkWorld [("  ", None)] []))
    as (_ & Hblank & _).
  - vm_compute. reflexivity.
  - vm_compute. reflexivity.
  - apply (Hblank "  " (mkWorld [] [])); reflexivity.
Defined.


Lemma loaded_reviews_cover_the_files_witness :
  exists rv, msg_reviews (fst (loadReviewsCmd (Some reviewer) oneReviewed)) = Some rv /\
    dom rv = list_to_set ["a.go"] /\
    size rv = length ["a.go"] /\
    (forall f r, rv !! f = Some r -> r <> "" /\ TrimSpace r = r) /\
    (forall (m : Model Z (option ai.OpenAICompatibleProvider)) (keys : list string),
       0 <= selected m ->
       let m' := run (fst (Update m (ReviewLoaded
                   (fst (loadReviewsCmd (Some reviewer) oneReviewed)))))
                     (map KeyMsg keys) in
       exists f r, ["a.go"] !! Z.to_nat (selected m') = Some f /\ rv !! f = Some r /\
         selectedReview m' = r).
Proof.
  apply (loaded_reviews_cover_the_files (S := Z) reviewer oneReviewed
           (snd (loadReviewsCmd (Some reviewer) oneReviewed))).
  - now destruct (loadReviewsCmd (Some reviewer) oneReviewed).
  - reflexivity.
  - reflexivity.
  - discriminate.
Defined.

Example review_of_a_go_is_trimmed :
  msg_reviews (fst (loadReviewsCmd (Some reviewer) oneReviewed)) =
    Some {[ "a.go" := "Looks fine." ]} /\
  View (fst (Update (NewModel (Some reviewer))
               (ReviewLoaded (fst (loadReviewsCmd (Some reviewer) oneReviewed))))) =
    "> a.go Looks fine.".
Proof. split; vm_compute; reflexivity. Qed.

End Samples.

End ui_facts.

(** ** More on trimming: what is left of a string that starts with text *)

Module trim_facts.
Import strings strings_facts.

Lemma list_of_append (a b : string) :
  list_ascii_of_string (a +:+ b) = list_ascii_of_string a ++ list_ascii_of_string b.
Proof. induction a as [|c a IH]; simpl; [reflexivity|]. now rewrite <- IH. Qed.

Lemma string_of_list_nonempty (l : list ascii) :
  l <> [] -> string_of_list_ascii l <> "".
Proof. destruct l; [congruence|discriminate]. Qed.

(** A loop that leaves nothing has eaten patterns up to the end. *)
Lemma trimLoop_eats_all (pats : list (list ascii)) (n : nat) (t : list ascii) :
  trimLoop pats n t = [] -> t <> [] -> exists pre q, In q pats /\ t = pre ++ q.
Proof.
  revert t. induction n as [|n IH]; intros t; simpl; [congruence|].
  destruct (dropOne pats t) as [t'|] eqn:E; [|congruence].
  intros Hall _. destruct (dropOne_Some _ _ _ E) as (p & Hp & ->).
  destruct t' as [|c t'].
  - exists [], p. now rewrite app_nil_r.
  - destruct (IH (c :: t') Hall) as (pre & q & Hq & Ht); [discriminate|].
    exists (p ++ pre), q. split; [assumption|]. now rewrite Ht, app_assoc.
Qed.

(** Text that starts with no white space keeps something when trimmed on
    the right. *)
Lemma TrimRight_keeps_text (s : list ascii) :
  s <> [] -> dropOne spaces s = None -> TrimRight s <> [].
Proof.
  intros Hne Hclean Hgone. unfold TrimRight in Hgone.
  assert (trimLoop (map (@rev ascii) spaces) (length s) (rev s) = []) as Hloop.
  { apply (f_equal (@rev ascii)) in Hgone. now rewrite rev_involutive in Hgone. }
  destruct (trimLoop_eats_all _ _ _ Hloop) as (pre & q & Hq & Hs).
  { intros Hr. apply (f_equal (@rev ascii)) in Hr. rewrite rev_involutive in Hr.
    now apply Hne. }
  apply in_map_iff in Hq as (p & <- & Hp).
  apply (f_equal (@rev ascii)) in Hs.
  rewrite rev_involutive, rev_app_distr, rev_involutive in Hs.
  pose proof (proj1 (dropOne_None spaces s) Hclean p Hp) as Hstrip.
  assert (stripPrefix p s = Some (rev pre)) by (now apply stripPrefix_spec).
  congruence.
Qed.

Lemma TrimSpace_keeps_text (l : list ascii) :
  l <> [] -> dropOne spaces l = None -> TrimSpace (string_of_list_ascii l) <> "".
Proof.
  intros Hne Hclean. unfold TrimSpace. rewrite list_ascii_of_string_of_list_ascii.
  rewrite (TrimLeft_fixed _ Hclean).
  apply string_of_list_nonempty. now apply TrimRight_keeps_text.
Qed.

(** A trimmed string that is not empty starts with no white space. *)
Lemma TrimSpace_clean (s : string) :
  dropOne spaces (list_ascii_of_string (TrimSpace s)) = None.
Proof.
  unfold TrimSpace. rewrite list_ascii_of_string_of_list_ascii.
  destruct (TrimRight_prefix (TrimLeft (list_ascii_of_string s))) as [post Hpost].
  apply dropOne_None_prefix with (v := post). rewrite <- Hpost.
  apply TrimLeft_clean.
Qed.

Lemma stripPrefix_app_None (p l x : list ascii) :
  (length p <= length l)%nat -> stripPrefix p l = None -> stripPrefix p (l ++ x) = None.
Proof.
  revert l. induction p as [|a p IH]; intros l Hlen; simpl; [discriminate|].
  destruct l as [|b l]; simpl in *; [lia|].
  destruct (Ascii.eqb a b); [|reflexivity]. apply IH. lia.
Qed.

Lemma spaces_short : forall p, In p spaces -> (length p <= 3)%nat.
Proof. apply List.Forall_forall. repeat constructor. Qed.

(** Text of three bytes or more that starts with no white space still
    starts with none when more is appended. *)
Lemma dropOne_app_None (l x : list ascii) :
  (3 <= length l)%nat -> dropOne spaces l = None -> dropOne spaces (l ++ x) = None.
Proof.
  intros Hlen Hclean. apply dropOne_None. intros p Hp.
  apply stripPrefix_app_None.
  - pose proof (spaces_short p Hp). lia.
  - now apply (proj1 (dropOne_None spaces l) Hclean).
Qed.

Lemma TrimSpace_keeps_prefix (a x : string) :
  (3 <= length (list_ascii_of_string a))%nat ->
  dropOne spaces (list_ascii_of_string a) = None ->
  TrimSpace (a +:+ x) <> "".
Proof.
  intros Hlen Hclean.
  rewrite <- (string_of_list_ascii_of_string (a +:+ x)), list_of_append.
  apply TrimSpace_keeps_text.
  - destruct (list_ascii_of_string a); [simpl in Hlen; lia|discriminate].
  - now apply dropOne_app_None.
Qed.

(** The first field [Split] returns: the bytes before the first separator. *)
Lemma splitLoop_head (sep : ascii) (cur s : list ascii) :
  exists pre post rest, s = pre ++ post /\
    splitLoop sep cur s = string_of_list_ascii (rev cur ++ pre) :: rest /\
    (forall c s', s = c :: s' -> c <> sep -> pre <> []).
Proof.
  revert cur. induction s as [|c s IH]; intros cur; simpl.
  - exists [], [], []. rewrite !app_nil_r.
    split; [reflexivity|]. split; [reflexivity|]. intros c s' Hs. discriminate Hs.
  - destruct (Ascii.eqb_spec c sep) as [->|Hne].
    + exists [], (sep :: s), (splitLoop sep [] s). rewrite !app_nil_r.
      split; [reflexivity|]. split; [reflexivity|].
      intros c' s' [= <- _] Hc. congruence.
    + destruct (IH (c :: cur)) as (pre & post & rest & -> & Hsplit & _).
      exists (c :: pre), post, rest.
      split; [reflexivity|]. split; [|discriminate].
      rewrite Hsplit. simpl. now rewrite <- app_assoc.
Qed.

End trim_facts.

(** ** The staged-file listing and the staged diff *)

Module gitops_facts.
Import strings strings_facts trim_facts.

(** What the loop of [GetChangedFiles] appends to the files found so far. *)
Lemma collect_appends (lines : list string) (seen : gset string) (acc : list string) :
  exists more, gitops.collect lines seen acc = acc ++ more /\
    NoDup more /\
    (forall f, f ∈ more <->
       f <> "" /\ (f ∉ seen) /\ exists line, line ∈ lines /\ TrimSpace line = f) /\
    sublist more (map TrimSpace lines).
Proof.
  revert seen acc. induction lines as [|line lines IH]; intros seen acc; simpl.
  - exists []. rewrite app_nil_r. split; [reflexivity|]. split; [constructor|].
    split; [|constructor].
    intros f. split; [intros Hf; now apply elem_of_nil in Hf|].
    intros (_ & _ & l & Hl & _). now apply elem_of_nil in Hl.
  - destruct (String.eqb_spec (TrimSpace line) "") as [Hblank|Htext].
    { destruct (IH seen acc) as (more & Heq & Hnd & Hmem & Hsub).
      exists more. split; [exact Heq|]. split; [exact Hnd|].
      split; [|now apply sublist_cons].
      intros f. rewrite Hmem. split.
      - intros (? & ? & l & Hl & Ht). repeat split; try assumption.
        exists l. split; [now apply elem_of_cons; right|assumption].
      - intros (Hf & ? & l & Hl & Ht). repeat split; try assumption.
        apply elem_of_cons in Hl as [->|Hl]; [congruence|eauto]. }
    case_bool_decide as Hseen.
    { destruct (IH seen acc) as (more & Heq & Hnd & Hmem & Hsub).
      exists more. split; [exact Heq|]. split; [exact Hnd|].
      split; [|now apply sublist_cons].
      intros f. rewrite Hmem. split.
      - intros (? & ? & l & Hl & Ht). repeat split; try assumption.
        exists l. split; [now apply elem_of_cons; right|assumption].
      - intros (Hf & Hns & l & Hl & Ht). repeat split; try assumption.
        apply elem_of_cons in Hl as [->|Hl]; [congruence|eauto]. }
    destruct (IH ({[TrimSpace line]} ∪ seen) (acc ++ [TrimSpace line]))
      as (more & Heq & Hnd & Hmem & Hsub).
    exists (TrimSpace line :: more).
    split; [now rewrite Heq, <- app_assoc|].
    split; [|split; [|now apply sublist_skip]].
    + constructor; [|exact Hnd]. rewrite Hmem. intros (_ & Hns & _). set_solver.
    + intros f. rewrite elem_of_cons, Hmem. split.
      * intros [->|(Hf & Hns & l & Hl & Ht)].
        -- repeat split; try assumption. exists line. split; [left|reflexivity].
        -- repeat split; [assumption|set_solver|].
           exists l. split; [now apply elem_of_cons; right|assumption].
      * intros (Hf & Hns & l & Hl & Ht).
        destruct (decide (f = TrimSpace line)) as [|Hne]; [now left|right].
        repeat split; [assumption|set_solver|].
        apply elem_of_cons in Hl as [->|Hl]; [congruence|eauto].
Qed.

Section Listing.
Context {W : Type} `{Git W}.

(** X1. A successful listing holds each staged path once, in the order git
    printed them: a path is listed exactly when it is the trimming, not
    empty, of a line of the trimmed output. *)
Theorem GetChangedFiles_lists_each_path_once (w w' : W) (fs : list string) :
  gitops.GetChangedFiles w = (Ok fs, w') ->
  let out := fst (fst (CombinedOutput ["diff"; "--cached"; "--name-only"; "--"; "*.go"] w)) in
  NoDup fs /\
  (forall f, f ∈ fs <->
     f <> "" /\ exists line, line ∈ Split (TrimSpace out) "010" /\ TrimSpace line = f) /\
  sublist fs (map TrimSpace (Split (TrimSpace out) "010")) /\
  (forall f, f ∈ fs -> TrimSpace f = f).
Proof.
  unfold gitops.GetChangedFiles.
  destruct (CombinedOutput _ w) as [[out err] w1]. simpl fst.
  destruct err as [err|].
  { destruct (Is_ErrNotFound err); [discriminate|].
    destruct (Contains _ _); [discriminate|].
    destruct (negb _); discriminate. }
  assert (forall more : list string,
    NoDup more ->
    (forall f, f ∈ more <-> f <> "" /\ (f ∉ (∅ : gset string)) /\
       exists line, line ∈ Split (TrimSpace out) "010" /\ TrimSpace line = f) ->
    sublist more (map TrimSpace (Split (TrimSpace out) "010")) ->
    NoDup more /\
    (forall f, f ∈ more <->
       f <> "" /\ exists line, line ∈ Split (TrimSpace out) "010" /\ TrimSpace line = f) /\
    sublist more (map TrimSpace (Split (TrimSpace out) "010")) /\
    (forall f, f ∈ more -> TrimSpace f = f)) as Hwrap.
  { intros more Hnd Hmem Hsub. split; [exact Hnd|].
    assert (forall f, f ∈ more <->
       f <> "" /\ exists line, line ∈ Split (TrimSpace out) "010" /\ TrimSpace line = f)
      as Hmem'.
    { intros f. rewrite Hmem. split.
      - intros (? & _ & ?). auto.
      - intros (? & ?). repeat split; [assumption|set_solver|assumption]. }
    split; [exact Hmem'|]. split; [exact Hsub|].
    intros f Hf. apply Hmem' in Hf as (_ & l & _ & <-). apply TrimSpace_idem. }
  destruct (String.eqb_spec (TrimSpace out) "") as [Hblank|Htext].
  - intros [= <- _]. apply Hwrap; [constructor| |apply sublist_nil_l].
    intros f. split; [intros Hf; now apply elem_of_nil in Hf|].
    rewrite Hblank. intros (Hf & _ & l & Hl & Ht).
    apply list_elem_of_singleton in Hl. subst l. exfalso. apply Hf.
    rewrite <- Ht. reflexivity.
  - intros [= <- _].
    destruct (collect_appends (Split (TrimSpace out) "010") ∅ [])
      as (more & -> & Hnd & Hmem & Hsub).
    now apply Hwrap.
Qed.

(** X2. The listing succeeds exactly when the command reports no error, and
    it is empty exactly when the command then printed nothing but white
    space; in every case the world is the one the command left. *)
Theorem GetChangedFiles_empty_iff_blank (w : W) :
  let ran := CombinedOutput ["diff"; "--cached"; "--name-only"; "--"; "*.go"] w in
  snd (gitops.GetChangedFiles w) = snd ran /\
  (is_Ok (fst (gitops.GetChangedFiles w)) = true <-> snd (fst ran) = None) /\
  (fst (gitops.GetChangedFiles w) = Ok [] <->
     snd (fst ran) = None /\ TrimSpace (fst (fst ran)) = "").
Proof.
  unfold gitops.GetChangedFiles.
  destruct (CombinedOutput _ w) as [[out err] w1]. simpl.
  destruct err as [err|].
  { destruct (Is_ErrNotFound err); [|destruct (Contains _ _); [|destruct (negb _)]];
      simpl; (split; [reflexivity|]); (split; split; try discriminate);
      intros [? _]; discriminate. }
  destruct (String.eqb_spec (TrimSpace out) "") as [Hblank|Htext]; simpl.
  { split; [reflexivity|]. split; split; auto. }
  split; [reflexivity|]. split; [split; auto|].
  split; [|intros [_ ?]; congruence]. intros Hnone. exfalso.
  injection Hnone as Hnone.
  unfold Split in Hnone.
  destruct (list_ascii_of_string (TrimSpace out)) as [|c s'] eqn:Hbytes.
  { apply Htext. rewrite <- (string_of_list_ascii_of_string (TrimSpace out)).
    now rewrite Hbytes. }
  pose proof (TrimSpace_clean out) as Hclean. rewrite Hbytes in Hclean.
  assert (c <> "010"%char) as Hc.
  { intros ->.
    assert (stripPrefix ["010"%char] ("010"%char :: s') = None) as Hs
      by (apply (proj1 (dropOne_None spaces _) Hclean); repeat (try (now left); right)).
    discriminate Hs. }
  destruct (splitLoop_head "010" [] (c :: s')) as (pre & post & rest & Hs & Hsplit & Hpre).
  rewrite Hsplit in Hnone. simpl in Hnone.
  assert (TrimSpace (string_of_list_ascii pre) <> "") as Hline.
  { apply TrimSpace_keeps_text; [now apply (Hpre c s')|].
    apply dropOne_None_prefix with (v := post). now rewrite <- Hs. }
  rewrite (proj2 (String.eqb_neq _ _) Hline) in Hnone.
  rewrite bool_decide_eq_false_2 in Hnone by set_solver.
  destruct (collect_appends rest
              ({[TrimSpace (string_of_list_ascii pre)]} ∪ ∅)
              [TrimSpace (string_of_list_ascii pre)]) as (more & Heq & _).
  simpl in Hnone. rewrite Heq in Hnone. discriminate Hnone.
Qed.

(** X3. [GetStagedDiff] succeeds exactly when the command reports no error
    and then returns the trimmed output, the empty string included: an
    empty staging area is no failure here. *)
Theorem GetStagedDiff_returns_trimmed_output (w : W) :
  let ran := CombinedOutput ["diff"; "--cached"; "--unified=0"; "--"; "*.go"] w in
  snd (gitops.GetStagedDiff w) = snd ran /\
  (forall d, fst (gitops.GetStagedDiff w) = Ok d <->
     snd (fst ran) = None /\ d = TrimSpace (fst (fst ran))) /\
  (forall d, fst (gitops.GetStagedDiff w) = Ok d -> TrimSpace d = d).
Proof.
  unfold gitops.GetStagedDiff.
  destruct (CombinedOutput _ w) as [[out err] w1]. simpl.
  destruct err as [err|].
  { destruct (Is_ErrNotFound err); [|destruct (Contains _ _); [|destruct (negb _)]];
      simpl; (split; [reflexivity|]); (split; [|discriminate]);
      intros d; (split; [discriminate|intros [? _]; discriminate]). }
  split; [reflexivity|]. split.
  - intros d. split; [intros [= <-]; auto|intros [_ ->]; reflexivity].
  - intros d [= <-]. apply TrimSpace_idem.
Qed.

End Listing.

End gitops_facts.

(** ** More on the review run and the session *)

Module session_facts.
Import strings strings_facts trim_facts ui.

Section Run.
Context {W S P : Type} `{Git W} `{ai.LLMProvider W P} `{Terminal S} `{Fmt}.

(** X4. A staged diff is fetched successfully exactly when the command
    reports no error and prints more than white space; the diff is then the
    trimmed output, and the prompt built from it is the review prompt, not
    the notice about an empty diff. *)
Theorem getFileStagedDiff_gives_text (file : string) (w : W) :
  let ran := CombinedOutput ["diff"; "--cached"; "--unified=0"; "--"; file] w in
  snd (getFileStagedDiff file w) = snd ran /\
  (forall d, fst (getFileStagedDiff file w) = Ok d <->
     snd (fst ran) = None /\ d = TrimSpace (fst (fst ran)) /\ d <> "") /\
  (forall d, fst (getFileStagedDiff file w) = Ok d ->
     TrimSpace d = d /\
     buildReviewPrompt d =
       systemPrompt +:+ "

" +:+ Sprintf "请审查以下 Git diff（只读即可，不需要给出可直接应用的 patch），并按照上述要求返回 Markdown 格式的审查报告：

```diff
%s
```" [d]).
Proof.
  unfold getFileStagedDiff.
  destruct (CombinedOutput _ w) as [[out err] w1]. simpl.
  destruct err as [err|].
  { destruct (Contains _ _); [|destruct (negb _)]; simpl;
      (split; [reflexivity|]); (split; [|discriminate]);
      intros d; (split; [discriminate|intros [? _]; discriminate]). }
  destruct (String.eqb_spec (TrimSpace out) "") as [Hblank|Htext]; simpl.
  { split; [reflexivity|]. split; [|discriminate].
    intros d. split; [discriminate|]. intros (_ & -> & Hd). congruence. }
  split; [reflexivity|]. split.
  - intros d. split; [intros [= <-]; auto|intros (_ & -> & _); reflexivity].
  - intros d [= <-]. split; [apply TrimSpace_idem|].
    unfold buildReviewPrompt. rewrite TrimSpace_idem.
    now rewrite (proj2 (String.eqb_neq _ _) Htext).
Qed.

Lemma systemPrompt_starts_with_text :
  (3 <= length (list_ascii_of_string systemPrompt))%nat /\
  dropOne spaces (list_ascii_of_string systemPrompt) = None.
Proof. split; [vm_compute; lia|vm_compute; reflexivity]. Qed.

Lemma buildReviewPrompt_not_blank (diff : string) :
  TrimSpace (buildReviewPrompt diff) <> "".
Proof.
  unfold buildReviewPrompt.
  destruct (String.eqb (TrimSpace diff) "").
  - vm_compute. discriminate.
  - destruct systemPrompt_starts_with_text as [Hlen Hclean].
    now apply TrimSpace_keeps_prefix.
Qed.

Lemma reviewEach_dom (provider : P) (fs : list string)
  (acc rv : gmap string string) (w w' : W) :
  reviewEach provider fs acc w = (Ok rv, w') ->
  dom rv = dom acc ∪ list_to_set fs.
Proof.
  revert acc w. induction fs as [|f fs IH]; intros acc w; simpl.
  - intros [= <-]. set_solver.
  - destruct (getFileStagedDiff f w) as [[diff|e] w1]; [|discriminate].
    destruct (ai.Chat provider (buildReviewPrompt diff) w1) as [[reply|e] w2];
      [|discriminate].
    intros Hrest. rewrite (IH _ _ Hrest), dom_insert_L. set_solver.
Qed.

(** X6. Whatever the provider, the message of a run either carries an
    error and nothing else, or no error together with a file list without
    repetition and a review for each listed file and for no other name. *)
Theorem loadReviewsCmd_error_or_results (provider : option P) (w : W) :
  let msg := fst (loadReviewsCmd provider w) in
  (exists e, msg_err msg = Some e /\ msg_files msg = None /\ msg_reviews msg = None) \/
  (exists fs rv, msg_err msg = None /\ msg_files msg = Some fs /\
     msg_reviews msg = Some rv /\ NoDup fs /\ dom rv = list_to_set fs /\
     size rv = length fs).
Proof.
  unfold loadReviewsCmd. destruct provider as [p|]; [|left; eauto].
  destruct (gitops.GetChangedFiles w) as [[fs|e] w1] eqn:Hlist; [|left; eauto].
  pose proof (ui_facts.GetChangedFiles_NoDup _ _ _ Hlist) as Hnd.
  destruct (Z.of_nat (length fs) =? 0) eqn:Hlen.
  { right. exists [], ∅. simpl. repeat split; try constructor; set_solver. }
  destruct (reviewEach p fs ∅ w1) as [[rv|e] w2] eqn:Hloop; [|left; eauto].
  right. exists fs, rv. simpl.
  assert (dom rv = list_to_set fs) as Hdom
    by (rewrite (reviewEach_dom _ _ _ _ _ _ Hloop); set_solver).
  repeat split; try assumption.
  rewrite <- size_dom, Hdom. now apply size_list_to_set.
Qed.

(** X7. Each kind of message changes its own part of the state only: a
    resize the two dimensions, a tick the spinner, a key the cursor, a
    failed load the loading flag and the error, a successful load also the
    files, the reviews and possibly the cursor; no message changes the
    provider, and an unknown message changes nothing. *)
Theorem Update_changes_only_its_part (m : Model S P) (msg : Msg) :
  let m' := fst (Update m msg) in
  provider m' = provider m /\
  match msg with
  | WindowSizeMsg wd ht =>
      width m' = wd /\ height m' = ht /\ snd (Update m msg) = CmdNil /\
      files m' = files m /\ reviews m' = reviews m /\ loading m' = loading m /\
      selected m' = selected m /\ spinner m' = spinner m /\ err m' = err m
  | TickMsg tick =>
      files m' = files m /\ reviews m' = reviews m /\ loading m' = loading m /\
      selected m' = selected m /\ err m' = err m /\
      width m' = width m /\ height m' = height m /\
      (loading m = false -> m' = m /\ snd (Update m msg) = CmdNil)
  | ReviewLoaded loaded =>
      loading m' = false /\ err m' = msg_err loaded /\ snd (Update m msg) = CmdNil /\
      spinner m' = spinner m /\ width m' = width m /\ height m' = height m /\
      (msg_err loaded = None ->
         files m' = msg_files loaded /\ reviews m' = msg_reviews loaded /\
         (selected m' = selected m \/ selected m' = 0)) /\
      (msg_err loaded <> None ->
         files m' = files m /\ reviews m' = reviews m /\ selected m' = selected m)
  | KeyMsg key =>
      files m' = files m /\ reviews m' = reviews m /\ loading m' = loading m /\
      err m' = err m /\ spinner m' = spinner m /\
      width m' = width m /\ height m' = height m
  | OtherMsg => m' = m /\ snd (Update m msg) = CmdNil
  end.
Proof.
  destruct msg as [wd ht|tick|loaded|key|]; simpl.
  - repeat split.
  - destruct (loading m) eqn:Hl.
    + destruct (spinner_Update (spinner m) tick); simpl.
      repeat split; try assumption; discriminate.
    + simpl. repeat split; assumption.
  - destruct (msg_err loaded) as [e|] eqn:He; simpl.
    + intuition discriminate.
    + destruct ((0 <? len (msg_files loaded)) && (len (msg_files loaded) <=? selected m));
        simpl; intuition congruence.
  - destruct (String.eqb key "q" || String.eqb key "ctrl+c"); [simpl; repeat split|].
    destruct (loading m || bool_decide (err m ≠ None)); [simpl; repeat split|].
    destruct (String.eqb key "up" || String.eqb key "k").
    { destruct (0 <? selected m); simpl; repeat split. }
    destruct (String.eqb key "down" || String.eqb key "j"); [|simpl; repeat split].
    destruct (selected m <? len (files m) - 1); simpl; repeat split.
  - repeat split.
Qed.

(** X8. Until the message of the run arrives the session stays as it
    started: loading, cursor on 0, no files, no error, whatever keys, ticks
    and resizes it receives. Once it has left the loading state it never
    returns to it. *)
Theorem session_loads_once (provider : option P) (msgs : list Msg) (m : Model S P) :
  (forallb (fun msg => match msg with ReviewLoaded _ => false | _ => true end) msgs = true ->
     let m' := run (NewModel provider) msgs in
     loading m' = true /\ selected m' = 0 /\ files m' = None /\
     reviews m' = Some ∅ /\ err m' = None) /\
  (loading m = false -> loading (run m msgs) = false).
Proof.
  split.
  - assert (forall m0 : Model S P,
      loading m0 = true -> selected m0 = 0 -> files m0 = None ->
      reviews m0 = Some ∅ -> err m0 = None ->
      forallb (fun msg => match msg with ReviewLoaded _ => false | _ => true end) msgs
        = true ->
      loading (run m0 msgs) = true /\ selected (run m0 msgs) = 0 /\
      files (run m0 msgs) = None /\ reviews (run m0 msgs) = Some ∅ /\
      err (run m0 msgs) = None) as Hinv.
    { induction msgs as [|msg msgs IH]; intros m0 Hl Hs Hf Hr He Hall; [auto|].
      simpl in Hall. apply andb_true_iff in Hall as [Hmsg Hall].
      change (run m0 (msg :: msgs)) with (run (fst (Update m0 msg)) msgs).
      destruct msg as [wd ht|tick|loaded|key|]; try discriminate;
        apply IH; try assumption; simpl; try assumption.
      all: try (rewrite Hl; destruct (spinner_Update (spinner m0) tick); simpl;
                assumption).
      all: destruct (String.eqb key "q" || String.eqb key "ctrl+c"); [assumption|];
        rewrite Hl; simpl; assumption. }
    intros Hall. now apply Hinv.
  - revert m. induction msgs as [|msg msgs IH]; intros m Hl; [assumption|].
    change (run m (msg :: msgs)) with (run (fst (Update m msg)) msgs).
    apply IH. destruct msg as [wd ht|tick|loaded|key|]; simpl; try assumption.
    + now rewrite Hl.
    + now destruct (msg_err loaded);
        [|destruct ((0 <? len (msg_files loaded)) && (len (msg_files loaded) <=? selected m))].
    + destruct (String.eqb key "q" || String.eqb key "ctrl+c"); [assumption|].
      destruct (loading m || bool_decide (err m ≠ None)); [assumption|].
      destruct (String.eqb key "up" || String.eqb key "k").
      { now destruct (0 <? selected m). }
      destruct (String.eqb key "down" || String.eqb key "j"); [|assumption].
      now destruct (selected m <? len (files m) - 1).
Qed.

(** X9. In every state the keys q and ctrl+c, and no other key, ask the
    program to quit, and they leave the state as it is; every other key
    returns no command. *)
Theorem quit_keys_quit_in_every_state (m : Model S P) (key : string) :
  (snd (Update m (KeyMsg key)) = Quit <-> key = "q" \/ key = "ctrl+c") /\
  (key = "q" \/ key = "ctrl+c" -> fst (Update m (KeyMsg key)) = m) /\
  (snd (Update m (KeyMsg key)) = Quit \/ snd (Update m (KeyMsg key)) = CmdNil).
Proof.
  simpl.
  destruct (String.eqb_spec key "q") as [->|Hq]; simpl.
  { repeat split; auto. }
  destruct (String.eqb_spec key "ctrl+c") as [->|Hc]; simpl.
  { repeat split; auto. }
  assert (forall r : Model S P * Cmd, snd r = CmdNil ->
            (snd r = Quit <-> key = "q" \/ key = "ctrl+c") /\
            (key = "q" \/ key = "ctrl+c" -> fst r = m) /\
            (snd r = Quit \/ snd r = CmdNil)) as Hnil.
  { intros r Hr. rewrite Hr. intuition (try discriminate; congruence). }
  destruct (loading m || bool_decide (err m ≠ None)); [now apply Hnil|].
  destruct (String.eqb key "up" || String.eqb key "k"); [now apply Hnil|].
  destruct (String.eqb key "down" || String.eqb key "j"); now apply Hnil.
Qed.

(** X10. The two columns of the content view are at least 20 wide each; a
    terminal of width 44 or more is filled exactly (left, right and 4 for
    the borders), a narrower one is overrun, and an unknown width counts as
    100. These are the widths [viewContent] renders with. *)
Theorem columnWidths_bounds (m : Model S P) (wd : Z) :
  let cw := columnWidths wd in
  20 <= fst cw /\ 20 <= snd cw /\
  (44 <= wd -> fst cw + snd cw + 4 = wd) /\
  (0 < wd < 44 -> fst cw = 20 /\ snd cw = 20) /\
  (80 <= wd -> fst cw = wd / 4) /\
  (wd <= 0 -> columnWidths wd = (25, 71)) /\
  viewContent m =
    if len (files m) =? 0 then
      centerInTerminal (Render infoStyle None noChanges) (width m) (height m)
    else
      JoinHorizontal
        [ Render fileListStyle (Some (fst (columnWidths (width m))))
            (Join (imap (fun i f =>
                           if Z.of_nat i =? selected m
                           then Render selectedFileStyle None ("> " +:+ f)
                           else Render normalFileStyle None ("  " +:+ f))
                        (elems (files m))) "
");
          Render reviewStyle (Some (snd (columnWidths (width m))))
            (renderMarkdown (selectedReview m) (snd (columnWidths (width m)))) ].
Proof.
  assert (forall t, 0 < t -> Z.quot t 4 = t / 4) as Hq
    by (intros t Ht; apply Z.quot_div_nonneg; lia).
  assert (wd <= 0 -> columnWidths wd = (25, 71)) as Hunknown.
  { intros Hwd. unfold columnWidths.
    destruct (Z.leb_spec wd 0) as [_|?]; [reflexivity|lia]. }
  assert (0 < wd ->
          columnWidths wd =
            (Z.max 20 (wd / 4), Z.max 20 (wd - Z.max 20 (wd / 4) - 4))) as Hknown.
  { intros Hwd. unfold columnWidths.
    destruct (Z.leb_spec wd 0) as [?|_]; [lia|]. rewrite (Hq wd Hwd).
    destruct (Z.ltb_spec (wd / 4) 20) as [Hl|Hl].
    - rewrite (Z.max_l 20 (wd / 4)) by lia.
      destruct (Z.ltb_spec (wd - 20 - 4) 20); f_equal; lia.
    - rewrite (Z.max_r 20 (wd / 4)) by lia.
      destruct (Z.ltb_spec (wd - wd / 4 - 4) 20); f_equal; lia. }
  intros cw. subst cw.
  destruct (Z.leb_spec wd 0) as [Hwd|Hwd].
  - rewrite (Hunknown Hwd). simpl.
    split; [lia|]. split; [lia|]. split; [lia|]. split; [lia|]. split; [lia|].
    split; reflexivity.
  - rewrite (Hknown Hwd). simpl.
    pose proof (Z.mul_div_le wd 4 ltac:(lia)) as Hlo.
    pose proof (Z.mul_succ_div_gt wd 4 ltac:(lia)) as Hhi.
    split; [lia|]. split; [lia|]. split; [lia|]. split; [lia|]. split; [lia|].
    split; [lia|reflexivity].
Qed.

End Run.

End session_facts.

(** ** More on the providers and the reviewer *)

Module provider_facts.
Import strings strings_facts trim_facts ai.

Section Constructors.
Context {W : Type} `{Backend W} `{Fmt}.

(** X5. Every prompt the review loop builds carries text: whatever the
    diff, the chat call on an initialised provider sends it to the backend
    (the world is the one the backend leaves), and it succeeds exactly when
    the first choice of the response has text. *)
Theorem review_prompts_reach_the_backend (c : Client) (mdl diff : string) (w : W) :
  let prompt := ui.buildReviewPrompt diff in
  let req := mkRequest mdl defaultTemperature
               [mkMessage ChatMessageRoleUser (TrimSpace prompt)] in
  let sent := CreateChatCompletion c req w in
  let called := OpenAICompatibleProvider_Chat (Some (mkProvider (Some c) mdl)) prompt w in
  String.eqb (TrimSpace prompt) "" = false /\
  snd called = snd sent /\
  (is_Ok (fst called) = true <->
     exists resp first rest, fst sent = Ok resp /\ Choices resp = first :: rest /\
       TrimSpace (Content (Message first)) <> "").
Proof.
  intros prompt req sent called.
  assert (String.eqb (TrimSpace prompt) "" = false) as Hp
    by (apply String.eqb_neq, session_facts.buildReviewPrompt_not_blank).
  split; [exact Hp|].
  subst called. unfold OpenAICompatibleProvider_Chat. simpl. rewrite Hp.
  fold req. fold sent. destruct sent as [[resp|e] w1]; simpl.
  2:{ split; [reflexivity|]. split; [discriminate|]. intros (r & _ & _ & Hr & _).
      discriminate Hr. }
  destruct (Choices resp) as [|first rest] eqn:Hch; simpl.
  { split; [reflexivity|]. split; [discriminate|].
    intros (r & f & t & [= <-] & Hr & _). congruence. }
  destruct (String.eqb_spec (TrimSpace (Content (Message first))) "") as [Hc|Hc]; simpl.
  - split; [reflexivity|]. split; [discriminate|].
    intros (r & f & t & [= <-] & Hr & Hne). rewrite Hch in Hr.
    injection Hr as <- _. congruence.
  - split; [reflexivity|]. split; [|reflexivity]. intros _. eauto 6.
Qed.

(** X11. [NewOpenAICompatibleProvider] fails exactly when the api key is
    blank. The provider it returns always has a client and a model that is
    not empty; key, base URL and model are used trimmed, a blank model is
    replaced by the default one and a blank base URL by the library's
    address; so white space around the three arguments changes nothing. *)
Theorem NewOpenAICompatibleProvider_is_initialised (baseURL apiKey mdl : string) :
  (is_Ok (NewOpenAICompatibleProvider baseURL apiKey mdl) = false <->
     TrimSpace apiKey = "") /\
  (forall p, NewOpenAICompatibleProvider baseURL apiKey mdl = Ok p ->
     exists c m, p = Some (mkProvider (Some c) m) /\
       authToken (config c) = TrimSpace apiKey /\
       BaseURL (config c) =
         (if String.eqb (TrimSpace baseURL) "" then openaiAPIURLv1
          else TrimSpace baseURL) /\
       m = (if String.eqb (TrimSpace mdl) "" then defaultModel else TrimSpace mdl) /\
       String.eqb m "" = false /\ TrimSpace m = m) /\
  NewOpenAICompatibleProvider (TrimSpace baseURL) (TrimSpace apiKey) (TrimSpace mdl)
    = NewOpenAICompatibleProvider baseURL apiKey mdl.
Proof.
  unfold NewOpenAICompatibleProvider. rewrite !TrimSpace_idem.
  split; [|split; [|reflexivity]].
  - destruct (String.eqb_spec (TrimSpace apiKey) ""); simpl; split; congruence.
  - intros p. destruct (String.eqb (TrimSpace apiKey) ""); [discriminate|].
    intros [= <-]. eexists _, _. split; [reflexivity|]. simpl.
    split; [unfold DefaultConfig; now destruct (String.eqb (TrimSpace baseURL) "")|].
    split; [now destruct (String.eqb (TrimSpace baseURL) "")|].
    split; [reflexivity|].
    destruct (String.eqb (TrimSpace mdl) "") eqn:Hm.
    + split; reflexivity.
    + split; [exact Hm|apply TrimSpace_idem].
Qed.

(** The options of [WithModel] applied in turn. *)
Lemma WithModel_fold (models : list string) (r : Reviewer.t) :
  Reviewer.client
    (fold_left (fun r opt => opt r) (map WithModel models) r) = Reviewer.client r /\
  Reviewer.model
    (fold_left (fun r opt => opt r) (map WithModel models) r) =
  default (Reviewer.model r) (last (filter (fun m => TrimSpace m <> "") models)).
Proof.
  revert r. induction models as [|m models IH]; intros r; [now split|].
  simpl fold_left. destruct (IH (WithModel m r)) as [Hc Hm].
  rewrite Hc, Hm. unfold WithModel.
  destruct (String.eqb_spec (TrimSpace m) "") as [Hb|Hb]; simpl.
  - rewrite filter_cons_False by (intros Hne; now apply Hne). now split.
  - rewrite filter_cons_True by assumption. split; [reflexivity|].
    rewrite last_cons. now destruct (last (filter _ models)).
Qed.

(** X12. A reviewer built with [WithModel] options uses the last model
    among them that is not blank, as given, and the default model when
    there is none; its model is never blank and its client is the default
    client for the key, which is taken as it is, blank or not. *)
Theorem NewReviewer_uses_the_last_model (apiKey : string) (models : list string) :
  exists r, NewReviewer apiKey (map WithModel models) = Some r /\
    Reviewer.client r = Some (NewClient apiKey) /\
    Reviewer.model r =
      default defaultModel (last (filter (fun m => TrimSpace m <> "") models)) /\
    String.eqb (TrimSpace (Reviewer.model r)) "" = false.
Proof.
  unfold NewReviewer. eexists. split; [reflexivity|].
  destruct (WithModel_fold models (Reviewer.mk (Some (NewClient apiKey)) defaultModel))
    as [Hc Hm].
  split; [exact Hc|]. split; [exact Hm|]. rewrite Hm. simpl.
  destruct (last (filter _ models)) as [m|] eqn:Hl; simpl; [|reflexivity].
  apply last_Some_elem_of, list_elem_of_filter in Hl as [Hne _].
  now apply String.eqb_neq.
Qed.

(** X13. [ReviewCode] on an initialised reviewer fails without calling the
    backend when the diff is blank; otherwise it sends one request with the
    system prompt and the user prompt under the reviewer's model, and
    succeeds exactly when the first choice of the response has text, which
    it returns trimmed. *)
Theorem ReviewCode_reads_the_first_choice (c : Client) (mdl diff : string) (w : W) :
  let r := Some (Reviewer.mk (Some c) mdl) in
  let req := mkRequest mdl defaultTemperature
    [ mkMessage ChatMessageRoleSystem reviewerSystemPrompt;
      mkMessage ChatMessageRoleUser
        (Sprintf "请审查以下 Git diff（只读即可，不需要给出可直接应用的 patch），并按照系统提示要求返回 Markdown 格式的审查报告：

```diff
%s
```" [TrimSpace diff]) ] in
  let sent := CreateChatCompletion c req w in
  (TrimSpace diff = "" ->
     ReviewCode r diff w = (Err (errors_New "diff 为空，无法进行代码审查"), w)) /\
  (TrimSpace diff <> "" -> snd (ReviewCode r diff w) = snd sent) /\
  (forall reply, fst (ReviewCode r diff w) = Ok reply <->
     TrimSpace diff <> "" /\
     exists resp first rest, fst sent = Ok resp /\ Choices resp = first :: rest /\
       reply = TrimSpace (Content (Message first)) /\ reply <> "").
Proof.
  intros r req sent. unfold ReviewCode; simpl.
  destruct (String.eqb_spec (TrimSpace diff) "") as [Hd|Hd]; simpl.
  { split; [reflexivity|]. split; [congruence|].
    intros reply. split; [discriminate|]. intros [? _]. congruence. }
  fold req. fold sent. split; [congruence|].
  destruct sent as [[resp|e] w1]; simpl.
  2:{ split; [reflexivity|]. intros reply. split; [discriminate|].
      intros (_ & r' & _ & _ & Hr & _). discriminate Hr. }
  destruct (Choices resp) as [|first rest] eqn:Hch; simpl.
  { split; [reflexivity|]. intros reply. split; [discriminate|].
    intros (_ & r' & f & t & [= <-] & Hr & _). congruence. }
  destruct (String.eqb_spec (TrimSpace (Content (Message first))) "") as [Hc|Hc]; simpl.
  - split; [reflexivity|]. intros reply. split; [discriminate|].
    intros (_ & r' & f & t & [= <-] & Hr & -> & Hne). rewrite Hch in Hr.
    injection Hr as <- _. congruence.
  - split; [reflexivity|]. intros reply. split.
    + intros [= <-]. split; [assumption|]. exists resp, first, rest. auto.
    + intros (_ & r' & f & t & [= <-] & Hr & -> & _). rewrite Hch in Hr.
      now injection Hr as <- _.
Qed.

End Constructors.

End provider_facts.

(** ** More on loading the configuration, and the root command *)

Module startup_facts.
Import strings strings_facts config.

(** X14. With a non-empty providers map the flat api key, base URL and
    model of the file play no part: [Load] answers the same whatever they
    hold. *)
Theorem selectProfile_ignores_flat_fields
  (configPath : string) (cfg : Config) (key url mdl : string) :
  Providers cfg <> ∅ ->
  selectProfile configPath (mkConfig (Provider cfg) (Providers cfg) key url mdl)
  = selectProfile configPath cfg.
Proof.
  intros Hne. apply config_facts.has_providers in Hne.
  unfold selectProfile. simpl. now rewrite Hne.
Qed.

Section Loaded.
Context `{Viper}.

(** X15. A configuration that [Load] returns has a flat api key that is
    not empty; when it has profiles, its default provider names one of them
    and the flat fields are that profile's; checking it again accepts it
    unchanged. *)
Theorem Load_result_is_settled (cfg : Config) :
  Load = Ok cfg ->
  String.eqb (APIKey cfg) "" = false /\
  (Providers cfg <> ∅ ->
     Provider cfg <> "" /\
     Providers cfg !! Provider cfg =
       Some (ProviderConfig.mk (APIKey cfg) (BaseURL cfg) (Model cfg))) /\
  (forall configPath, selectProfile configPath cfg = Ok cfg).
Proof.
  unfold Load. destruct UserHomeDir as [home|e]; [|discriminate].
  destruct (ReadInConfig _) as [e|]; [discriminate|].
  destruct (Unmarshal _) as [raw|e]; [|discriminate].
  unfold selectProfile.
  destruct (0 <? Z.of_nat (size (Providers raw))) eqn:Hsz.
  - destruct (String.eqb_spec (Provider raw) "") as [|Hname]; [discriminate|].
    destruct (Providers raw !! Provider raw) as [[k u m]|] eqn:Hl; [|discriminate].
    simpl. destruct (String.eqb k "") eqn:Hk; [discriminate|].
    intros [= <-]. simpl. rewrite Hsz, Hl. simpl. rewrite Hk.
    rewrite (proj2 (String.eqb_neq _ _) Hname). auto.
  - destruct (String.eqb (APIKey raw) "") eqn:Hk; [discriminate|].
    intros [= <-]. rewrite Hsz, Hk. split; [reflexivity|]. split; [|reflexivity].
    intros Hne. apply config_facts.has_providers in Hne. congruence.
Qed.

End Loaded.

Section Root.
Context {W S : Type} `{Viper} `{ai.Backend W} `{Unicode}
  `{ui.Terminal S} `{root.Tea S (option ai.OpenAICompatibleProvider)}.

(** [NewProvider] fails on a blank key and otherwise returns an initialised
    provider. *)
Lemma NewProvider_outcome (cfg : Config) :
  (TrimSpace (APIKey cfg) = "" ->
     ai.NewProvider cfg = Err (errors_New "配置中的 api_key 不能为空")) /\
  (TrimSpace (APIKey cfg) <> "" ->
     exists c m, ai.NewProvider cfg = Ok (Some (ai.mkProvider (Some c) m))).
Proof.
  unfold ai.NewProvider, ai.resolve.
  destruct (String.eqb_spec (TrimSpace (APIKey cfg)) "") as [Hk|Hk].
  { split; [reflexivity|congruence]. }
  split; [congruence|]. intros _.
  unfold ai.resolveDefaults.
  set (name := ToLower (TrimSpace (Provider cfg))).
  set (b := TrimSpace (BaseURL cfg)). set (m := TrimSpace (Model cfg)).
  destruct (ai_facts.fillDefaults_trimmed name b m) as [Hb Hm];
    try apply TrimSpace_idem.
  pose proof (ai_facts.fillDefaults_model_set name b m) as Hset.
  destruct (ai.fillDefaults name b m) as [b' m']. simpl in *.
  eexists _, _. apply ai_facts.NewOpenAICompatibleProvider_trimmed; auto.
  - apply TrimSpace_idem.
  - now apply String.eqb_neq.
Qed.

(** X16. The root command reports a failed load as such; with a loaded
    configuration whose api key is blank (white space passes [Load]) it
    reports that the provider cannot be initialised; otherwise it starts the
    session, loading and with an initialised provider, and reports only a
    failure of the session itself. *)
Theorem rootCmd_starts_the_session :
  match Load with
  | Err e => root.rootCmd = Some (Errorf "加载配置失败: %w" [] (Some e))
  | Ok cfg =>
      (TrimSpace (APIKey cfg) = "" ->
         root.rootCmd =
           Some (Errorf "初始化 LLM Provider 失败: %w" []
                   (Some (errors_New "配置中的 api_key 不能为空")))) /\
      (TrimSpace (APIKey cfg) <> "" ->
         exists c m,
           ai.NewProvider cfg = Ok (Some (ai.mkProvider (Some c) m)) /\
           ui.loading (ui.NewModel (S := S) (Some (Some (ai.mkProvider (Some c) m))))
             = true /\
           root.rootCmd =
             match root.Run (ui.NewModel (Some (Some (ai.mkProvider (Some c) m)))) with
             | Some err => Some (Errorf "启动 TUI 失败: %w" [] (Some err))
             | None => None
             end)
  end.
Proof.
  unfold root.rootCmd. destruct Load as [cfg|e]; [|reflexivity].
  destruct (NewProvider_outcome cfg) as [Hblank Hset].
  split.
  - intros Hk. now rewrite (Hblank Hk).
  - intros Hk. destruct (Hset Hk) as (c & m & Hnew).
    exists c, m. rewrite Hnew. repeat split.
Qed.

End Root.

End startup_facts.

(** ** More on the configuration commands *)

Module store_facts.
Import cmd cmd_facts.

Lemma index_insert_eq (g : gmap string Value) (k : string) (v : Value) :
  index (Some (<[k := v]> g)) k = v.
Proof. unfold index. now rewrite lookup_insert_eq. Qed.

(** [knownDefaults] writes to the keys base_url and model only. *)
Lemma knownDefaults_other (provider : string) (entry : gmap string Value) (k : string) :
  k <> "base_url" -> k <> "model" -> knownDefaults provider entry !! k = entry !! k.
Proof.
  intros Hb Hm. unfold knownDefaults.
  repeat match goal with
         | |- context [if ?b then _ else _] => destruct b
         end;
    rewrite ?lookup_insert_ne by congruence; reflexivity.
Qed.

(** A field that is set is left as it is. *)
Lemma knownDefaults_kept (provider : string) (entry : gmap string Value) (k : string) :
  isNil (index (Some entry) k) = false -> knownDefaults provider entry !! k = entry !! k.
Proof.
  intros Hk. destruct (decide (k = "base_url")) as [->|Hb].
  { now rewrite knownDefaults_keeps. }
  destruct (decide (k = "model")) as [->|Hm]; [|now apply knownDefaults_other].
  unfold knownDefaults. rewrite !index_insert_ne by discriminate. rewrite Hk.
  repeat match goal with
         | |- context [if ?b then _ else _] => destruct b
         end;
    rewrite ?lookup_insert_ne by discriminate; reflexivity.
Qed.

Lemma knownDefaults_idem (provider : string) (entry : gmap string Value) :
  knownDefaults provider (knownDefaults provider entry) = knownDefaults provider entry.
Proof.
  destruct (isNil (index (Some entry) "base_url")) eqn:Hb.
  2:{ rewrite (knownDefaults_keeps provider entry Hb). now apply knownDefaults_keeps. }
  set (inner := knownDefaults provider entry).
  assert (inner = knownDefaults provider entry) as Hin by reflexivity.
  unfold knownDefaults in Hin. rewrite Hb, !index_insert_ne in Hin by discriminate.
  destruct (String.eqb provider "deepseek") eqn:Hd.
  { apply knownDefaults_keeps. rewrite Hin.
    destruct (isNil (index (Some entry) "model"));
      rewrite ?index_insert_ne by discriminate; now rewrite index_insert_eq. }
  destruct (String.eqb provider "qwen" || String.eqb provider "tongyi"
            || String.eqb provider "ali" || String.eqb provider "aliyun") eqn:Hq.
  { apply knownDefaults_keeps. rewrite Hin.
    destruct (isNil (index (Some entry) "model"));
      rewrite ?index_insert_ne by discriminate; now rewrite index_insert_eq. }
  unfold knownDefaults. rewrite Hd, Hq.
  destruct (String.eqb provider "openai") eqn:Ho.
  - destruct (isNil (index (Some entry) "model")) eqn:Hm; rewrite Hin.
    + rewrite index_insert_ne by discriminate. rewrite Hb.
      now rewrite index_insert_eq.
    + now rewrite Hb, Hm.
  - rewrite Hin. now rewrite Hb.
Qed.

(** [setKeyCmd] with a provider, on a document that is not the nil map: the
    document it saves. *)
Lemma patchKey_with_provider (apiKey provider : string) (doc : gmap string Value) :
  provider <> "" ->
  patchKey apiKey provider (Some doc) =
  let providers :=
    match index (Some doc) "providers" with VMap ps => ps | _ => ∅ end in
  let entry :=
    match providers !! provider with Some (VMap e) => e | _ => ∅ end in
  let saved :=
    <["providers" := VMap (<[provider :=
        VMap (knownDefaults provider (<["api_key" := VString apiKey]> entry))]>
        providers)]> doc in
  Some (if isNil (index (Some doc) "provider") || eqString (index (Some doc) "provider") ""
        then <["provider" := VString provider]> saved else saved).
Proof.
  intros Hp. unfold patchKey.
  rewrite (proj2 (String.eqb_neq provider "") Hp). simpl negb. cbv iota zeta.
  destruct (index (Some doc) "providers") as [| s | ps | raw] eqn:E;
    cbn -[index insert knownDefaults];
    rewrite ?index_insert_eq, ?E, ?insert_insert_eq;
    rewrite !index_insert_ne by discriminate;
    destruct (isNil (index (Some doc) "provider")
              || eqString (index (Some doc) "provider") ""); reflexivity.
Qed.

Lemma patchKey_Some (apiKey provider : string) (doc : gmap string Value) :
  exists saved, patchKey apiKey provider (Some doc) = Some saved.
Proof.
  destruct (decide (provider = "")) as [->|Hp].
  - eexists. reflexivity.
  - rewrite (patchKey_with_provider _ _ _ Hp). eexists. reflexivity.
Qed.

(** The document [set-key] saves has a profile for its provider. *)
Lemma patchKey_has_profile (apiKey provider : string) (doc : gmap string Value) :
  provider <> "" ->
  exists saved providers entry,
    patchKey apiKey provider (Some doc) = Some saved /\
    saved !! "providers" = Some (VMap providers) /\
    providers !! provider = Some (VMap entry).
Proof.
  intros Hp. rewrite (patchKey_with_provider _ _ _ Hp). cbv zeta.
  eexists _, _, _. split; [reflexivity|]. split.
  - destruct (isNil _ || _); rewrite ?lookup_insert_ne by discriminate;
      apply lookup_insert_eq.
  - apply lookup_insert_eq.
Qed.

(** X17. [set-key K --provider P] stores [K] in the profile of [P] and
    keeps what that profile already holds: a base URL or model that is set
    is never replaced, and no other key of the profile is touched. *)
Theorem setKey_keeps_what_is_set (apiKey provider : string) (doc : gmap string Value) :
  provider <> "" ->
  exists saved providers' entry',
    patchKey apiKey provider (Some doc) = Some saved /\
    saved !! "providers" = Some (VMap providers') /\
    providers' !! provider = Some (VMap entry') /\
    entry' !! "api_key" = Some (VString apiKey) /\
    (forall providers entry k,
       index (Some doc) "providers" = VMap providers ->
       providers !! provider = Some (VMap entry) ->
       k <> "api_key" ->
       isNil (index (Some entry) k) = false \/ (k <> "base_url" /\ k <> "model") ->
       entry' !! k = entry !! k).
Proof.
  intros Hp. rewrite (patchKey_with_provider _ _ _ Hp). cbv zeta.
  set (ps0 := match index (Some doc) "providers" with VMap ps => ps | _ => ∅ end).
  set (e0 := match ps0 !! provider with Some (VMap e) => e | _ => ∅ end).
  eexists _, _, _. split; [reflexivity|]. split; [|split; [|split]].
  - destruct (isNil _ || _); rewrite ?lookup_insert_ne by discriminate;
      apply lookup_insert_eq.
  - apply lookup_insert_eq.
  - rewrite knownDefaults_other by discriminate. apply lookup_insert_eq.
  - intros ps entry k Hps Hentry Hk Hset. subst e0 ps0. rewrite Hps, Hentry.
    destruct Hset as [Hset|[Hb Hm]].
    + rewrite knownDefaults_kept by (now rewrite index_insert_ne).
      now apply lookup_insert_ne.
    + rewrite knownDefaults_other by assumption. now apply lookup_insert_ne.
Qed.

(** X18. [set-key] changes one place of the document. Without a provider
    it is the flat api key. With a provider [P] it is the profile of [P]
    and, when none is set, the default provider: every other top-level key
    and every other profile stay as they are; a [providers] value that is
    not a mapping is replaced by a mapping that holds [P] alone. *)
Theorem setKey_touches_one_profile (apiKey provider : string) (doc : gmap string Value) :
  exists saved, patchKey apiKey provider (Some doc) = Some saved /\
    (provider = "" -> saved = <["api_key" := VString apiKey]> doc) /\
    (provider <> "" ->
       (forall k, k <> "providers" -> k <> "provider" -> saved !! k = doc !! k) /\
       (forall providers, index (Some doc) "providers" = VMap providers ->
          exists providers', saved !! "providers" = Some (VMap providers') /\
            forall other, other <> provider -> providers' !! other = providers !! other) /\
       ((forall providers, index (Some doc) "providers" <> VMap providers) ->
          saved !! "providers" =
            Some (VMap {[ provider :=
                    VMap (knownDefaults provider {[ "api_key" := VString apiKey ]}) ]})) /\
       saved !! "provider" =
         (if isNil (index (Some doc) "provider")
             || eqString (index (Some doc) "provider") ""
          then Some (VString provider) else doc !! "provider")).
Proof.
  destruct (decide (provider = "")) as [->|Hp].
  { eexists. split; [reflexivity|]. split; [reflexivity|congruence]. }
  rewrite (patchKey_with_provider _ _ _ Hp). cbv zeta.
  eexists. split; [reflexivity|]. split; [congruence|]. intros _.
  split; [|split; [|split]].
  - intros k Hk1 Hk2. destruct (isNil _ || _);
      now rewrite !lookup_insert_ne by congruence.
  - intros ps Hps. rewrite Hps. eexists. split.
    + destruct (isNil _ || _); rewrite ?lookup_insert_ne by discriminate;
        apply lookup_insert_eq.
    + intros other Hne. now apply lookup_insert_ne.
  - intros Hno.
    assert (match index (Some doc) "providers" with VMap ps => ps | _ => ∅ end = ∅)
      as -> by (destruct (index (Some doc) "providers") as [| |ps|];
                [reflexivity|reflexivity|now destruct (Hno ps)|reflexivity]).
    rewrite lookup_empty.
    destruct (isNil _ || _); rewrite ?lookup_insert_ne by discriminate;
      apply lookup_insert_eq.
  - destruct (isNil _ || _) eqn:Hc.
    + apply lookup_insert_eq.
    + now rewrite lookup_insert_ne by discriminate.
Qed.

(** X19. Running [set-key] a second time with the same arguments on the
    document it saved saves the same document. *)
Theorem setKey_twice_is_once (apiKey provider : string) (doc : gmap string Value) :
  exists saved, patchKey apiKey provider (Some doc) = Some saved /\
    patchKey apiKey provider (Some saved) = Some saved.
Proof.
  destruct (decide (provider = "")) as [->|Hp].
  { eexists. split; [reflexivity|]. cbn -[insert]. now rewrite insert_insert_eq. }
  rewrite (patchKey_with_provider _ _ _ Hp). cbv zeta.
  set (ps0 := match index (Some doc) "providers" with VMap ps => ps | _ => ∅ end).
  set (e0 := match ps0 !! provider with Some (VMap e) => e | _ => ∅ end).
  set (e1 := knownDefaults provider (<["api_key" := VString apiKey]> e0)).
  set (ps1 := <[provider := VMap e1]> ps0).
  set (d := <["providers" := VMap ps1]> doc).
  set (cond := isNil (index (Some doc) "provider")
               || eqString (index (Some doc) "provider") "").
  set (saved := if cond then <["provider" := VString provider]> d else d).
  exists saved. split; [reflexivity|].
  rewrite (patchKey_with_provider _ _ _ Hp). cbv zeta.
  assert (saved !! "providers" = Some (VMap ps1)) as Hps.
  { subst saved d. destruct cond; rewrite ?lookup_insert_ne by discriminate;
      apply lookup_insert_eq. }
  assert (index (Some saved) "providers" = VMap ps1) as ->
    by (unfold index; now rewrite Hps).
  assert (ps1 !! provider = Some (VMap e1)) as -> by apply lookup_insert_eq.
  assert (knownDefaults provider (<["api_key" := VString apiKey]> e1) = e1) as ->.
  { rewrite insert_id.
    - apply knownDefaults_idem.
    - subst e1. rewrite knownDefaults_other by discriminate. apply lookup_insert_eq. }
  assert (<[provider := VMap e1]> ps1 = ps1) as ->
    by (apply insert_id, lookup_insert_eq).
  rewrite (insert_id saved "providers" (VMap ps1) Hps).
  assert (isNil (index (Some saved) "provider")
          || eqString (index (Some saved) "provider") "" = false) as ->; [|reflexivity].
  subst saved. destruct cond eqn:Hc.
  - rewrite index_insert_eq. simpl. now apply String.eqb_neq.
  - subst d. now rewrite index_insert_ne by discriminate.
Qed.

Section Commands.
Context `{OS}.

(** X20. After [set-key K --provider P] has saved its document,
    [set-provider P] on that document meets its preconditions: it saves the
    document with [P] as the default provider. *)
Theorem setProvider_after_setKey
  (apiKey provider home data : string) (doc saved : gmap string Value) :
  provider <> "" ->
  patchKey apiKey provider (Some doc) = Some saved ->
  UserHomeDir = Ok home ->
  Stat (Join home ".review-go.yaml") = None ->
  ReadFile (Join home ".review-go.yaml") = Ok data ->
  Unmarshal data = Ok (Some saved) ->
  setProviderCmd provider =
    save (Join home ".review-go.yaml") (<["provider" := VString provider]> saved).
Proof.
  intros Hp Hsaved Hhome Hst Hrd Hdec.
  destruct (patchKey_has_profile apiKey provider doc Hp)
    as (saved' & ps & entry & Hs & Hps & Hentry).
  assert (saved' = saved) as -> by congruence.
  unfold setProviderCmd. rewrite Hhome, Hst, Hrd, Hdec.
  unfold index. rewrite Hps. simpl. now rewrite Hentry.
Qed.

(** X21. [set-key] panics exactly when the file is there, is read and
    decoded without error, and decodes to the nil map; in every other case
    it returns. *)
Theorem setKey_panics_on_the_nil_map (apiKey provider : string) :
  setKeyCmd apiKey provider = Panic <->
  exists home data, UserHomeDir = Ok home /\
    Stat (Join home ".review-go.yaml") = None /\
    ReadFile (Join home ".review-go.yaml") = Ok data /\
    Unmarshal data = Ok None.
Proof.
  assert (forall path doc, save path doc <> Panic) as Hsave.
  { intros path doc. unfold save. destruct (Marshal doc); [|discriminate].
    destruct (WriteFile path a); discriminate. }
  unfold setKeyCmd. destruct UserHomeDir as [home|e].
  2:{ split; [discriminate|]. intros (h & _ & Hh & _). discriminate Hh. }
  destruct (Stat (Join home ".review-go.yaml")) as [e|] eqn:Hst.
  { destruct (patchKey_Some apiKey provider ∅) as [saved ->].
    split; [intros Hp; now apply Hsave in Hp|].
    intros (h & d & [= <-] & Hs & _). congruence. }
  destruct (ReadFile (Join home ".review-go.yaml")) as [data|e] eqn:Hrd.
  2:{ split; [discriminate|]. intros (h & d & [= <-] & _ & Hr & _). congruence. }
  destruct (Unmarshal data) as [[doc|]|e] eqn:Hdec.
  - destruct (patchKey_Some apiKey provider doc) as [saved ->].
    split; [intros Hp; now apply Hsave in Hp|].
    intros (h & d & [= <-] & _ & Hr & Hd). congruence.
  - rewrite patchKey_nil_map. split; [|reflexivity]. intros _. eauto 6.
  - split; [discriminate|]. intros (h & d & [= <-] & _ & Hr & Hd). congruence.
Qed.

(** X22. [set-provider P] never panics; when it writes nothing it returns
    an error; and a document it writes has [P] as its default provider and
    a profile for [P]. *)
Theorem setProvider_writes_a_valid_default (provider : string) :
  match setProviderCmd provider with
  | Panic => False
  | Done None err => is_Some err
  | Done (Some (path, saved)) _ =>
      saved !! "provider" = Some (VString provider) /\
      exists providers, saved !! "providers" = Some (VMap providers) /\
        is_Some (providers !! provider)
  end.
Proof.
  unfold setProviderCmd. destruct UserHomeDir as [home|e]; [|eauto].
  destruct (Stat _); [eauto|]. destruct (ReadFile _) as [data|e]; [|eauto].
  destruct (Unmarshal data) as [config|e]; [|eauto].
  destruct (index config "providers") as [| |ps|] eqn:Hps; eauto.
  destruct (ps !! provider) as [v|] eqn:Hv; [|eauto].
  destruct config as [doc|]; [|discriminate]. simpl.
  unfold save. destruct (Marshal _); [|eauto].
  assert (<["provider" := VString provider]> doc !! "provider" = Some (VString provider)
          /\ exists providers,
               <["provider" := VString provider]> doc !! "providers" = Some (VMap providers)
               /\ is_Some (providers !! provider)) as Hok.
  { split; [apply lookup_insert_eq|]. exists ps. split; [|eauto].
    rewrite lookup_insert_ne by discriminate. unfold index in Hps.
    destruct (doc !! "providers") as [v'|]; simpl in Hps; congruence. }
  destruct (WriteFile _ _); exact Hok.
Qed.

End Commands.

End store_facts.

(** ** The properties with a precondition, on the sample surroundings *)

Module sample_runs.
Import strings samples.
#[local] Existing Instance playGit.

Lemma GetChangedFiles_lists_each_path_once_witness :
  NoDup ["a.go"; "b.go"] /\
  sublist ["a.go"; "b.go"] (map TrimSpace (Split (TrimSpace "a.go
b.go
") "010")).
Proof.
  assert (gitops.GetChangedFiles secondDiffBlank =
          (Ok ["a.go"; "b.go"],
           mkWorld [("@@ -1 +1 @@
-x
+y", None); ("  ", None)] [answer " Looks fine. "])) as Hrun
    by (vm_compute; reflexivity).
  destruct (gitops_facts.GetChangedFiles_lists_each_path_once _ _ _ Hrun)
    as (Hnd & _ & Hsub & _).
  split; [exact Hnd|exact Hsub].
Defined.

Lemma selectProfile_ignores_flat_fields_witness :
  config.selectProfile "/home/dev/.review-go.yaml"
    (config.mkConfig "deepseek" (config.Providers twoProfiles) "sk-flat" "http://flat" "m")
  = config.selectProfile "/home/dev/.review-go.yaml" twoProfiles.
Proof.
  apply (startup_facts.selectProfile_ignores_flat_fields
           "/home/dev/.review-go.yaml" twoProfiles "sk-flat" "http://flat" "m").
  intros Hempty. apply (f_equal size) in Hempty. vm_compute in Hempty.
  discriminate Hempty.
Defined.

Lemma Load_result_is_settled_witness :
  config.selectProfile "/etc/review-go.yaml"
    (config.mkConfig "deepseek" (config.Providers twoProfiles) "sk-1" "" "deepseek-chat")
  = Ok (config.mkConfig "deepseek" (config.Providers twoProfiles) "sk-1" ""
          "deepseek-chat").
Proof.
  destruct (@startup_facts.Load_result_is_settled (homeOf twoProfiles)
              (config.mkConfig "deepseek" (config.Providers twoProfiles) "sk-1" ""
                 "deepseek-chat")) as (_ & _ & Hagain).
  - vm_compute. reflexivity.
  - apply Hagain.
Defined.

Lemma setKey_keeps_what_is_set_witness :
  exists saved providers' entry',
    cmd.patchKey "sk-2" "deepseek" (Some oneProfile) = Some saved /\
    saved !! "providers" = Some (cmd.VMap providers') /\
    providers' !! "deepseek" = Some (cmd.VMap entry') /\
    entry' !! "api_key" = Some (cmd.VString "sk-2") /\
    (forall providers entry k,
       cmd.index (Some oneProfile) "providers" = cmd.VMap providers ->
       providers !! "deepseek" = Some (cmd.VMap entry) ->
       k <> "api_key" ->
       cmd.isNil (cmd.index (Some entry) k) = false \/ (k <> "base_url" /\ k <> "model") ->
       entry' !! k = entry !! k).
Proof.
  apply (store_facts.setKey_keeps_what_is_set "sk-2" "deepseek" oneProfile).
  discriminate.
Defined.

Lemma setProvider_after_setKey_witness :
  @cmd.setProviderCmd
    (machine (Some (Ok (cmd.patchKey "sk-2" "qwen" (Some oneProfile))))) "qwen"
  = cmd.Done
      (Some ("/home/dev/.review-go.yaml",
             <["provider" := cmd.VString "qwen"]>
               (<["providers" := cmd.VMap
                   (<["qwen" := cmd.VMap
                       {[ "model" := cmd.VString "qwen-turbo";
                          "base_url" := cmd.VString
                            "https://dashscope.aliyuncs.com/compatible-mode/v1";
                          "api_key" := cmd.VString "sk-2" ]}]>
                      {[ "deepseek" := cmd.VMap {[ "api_key" := cmd.VString "sk-1" ]} ]})]>
                  oneProfile)))
      None.
Proof.
  rewrite (@store_facts.setProvider_after_setKey
             (machine (Some (Ok (cmd.patchKey "sk-2" "qwen" (Some oneProfile)))))
             "sk-2" "qwen" "/home/dev" "(yaml)" oneProfile
             (<["providers" := cmd.VMap
                   (<["qwen" := cmd.VMap
                       {[ "model" := cmd.VString "qwen-turbo";
                          "base_url" := cmd.VString
                            "https://dashscope.aliyuncs.com/compatible-mode/v1";
                          "api_key" := cmd.VString "sk-2" ]}]>
                      {[ "deepseek" := cmd.VMap {[ "api_key" := cmd.VString "sk-1" ]} ]})]>
                  oneProfile)).
  - reflexivity.
  - discriminate.
  - vm_compute. reflexivity.
  - reflexivity.
  - reflexivity.
  - reflexivity.
  - vm_compute. reflexivity.
Defined.

End sample_runs.

(** ** The session from start to end *)

Module lifecycle_facts.
Import strings strings_facts ui props.

Section Lifecycle.
Context {W S P : Type} `{Git W} `{ai.LLMProvider W P} `{Terminal S} `{Fmt}.

Lemma run_app (m : Model S P) (first second : list Msg) :
  run m (first ++ second) = run (run m first) second.
Proof. unfold run. apply fold_left_app. Qed.

(** Keys, ticks, resizes and unknown messages leave the outcome of the run
    as it is. *)
Lemma run_without_load_keeps (msgs : list Msg) (m : Model S P) :
  forallb (fun msg => match msg with ReviewLoaded _ => false | _ => true end) msgs = true ->
  loading (run m msgs) = loading m /\ err (run m msgs) = err m /\
  files (run m msgs) = files m /\ reviews (run m msgs) = reviews m.
Proof.
  revert m. induction msgs as [|msg msgs IH]; intros m Hall; [repeat split|].
  simpl in Hall. apply andb_true_iff in Hall as [Hmsg Hall].
  change (run m (msg :: msgs)) with (run (fst (Update m msg)) msgs).
  destruct (IH (fst (Update m msg)) Hall) as (-> & -> & -> & ->).
  destruct msg as [wd ht|tick|loaded|key|]; try discriminate; simpl.
  - repeat split.
  - destruct (loading m) eqn:Hl; [|simpl; auto].
    destruct (spinner_Update (spinner m) tick); simpl; auto.
  - destruct (String.eqb key "q" || String.eqb key "ctrl+c"); [repeat split|].
    destruct (loading m || bool_decide (err m ≠ None)) eqn:Hc; [repeat split|].
    destruct (String.eqb key "up" || String.eqb key "k").
    { destruct (0 <? selected m); repeat split. }
    destruct (String.eqb key "down" || String.eqb key "j"); [|repeat split].
    destruct (selected m <? len (files m) - 1); repeat split.
  - repeat split.
Qed.

(** X23. A session that receives a message with an error shows that error,
    rendered with its whole chain of causes, and keeps the files and
    reviews it had, whatever the message carries besides the error. *)
Theorem failed_run_shows_its_error (m : Model S P)
  (fs : option (list string)) (rv : option (gmap string string)) (e : error) :
  let m' := fst (Update m (ReviewLoaded (mkLoaded fs rv (Some e)))) in
  View m' =
    centerInTerminal
      (Render errorStyle None (Sprintf "发生错误：

%s

按 q 退出。" [Error e]))
      (width m) (height m) /\
  files m' = files m /\ reviews m' = reviews m /\ selected m' = selected m.
Proof. repeat split. Qed.

(** X24. What the review pane is rendered from. With the cursor on a file,
    it is the stored review of that file when that review is not blank, and
    the placeholder for a missing review when it is blank or absent; with
    the cursor outside the list it is the placeholder for no selection; in
    no case is it blank. The content view hands exactly this Markdown to
    the renderer at the width of the right column, and shows it unrendered
    when the renderer fails. *)
Theorem review_pane_shows_the_selected_review (m : Model S P) :
  let md := selectedReview m in
  String.eqb (TrimSpace md) "" = false /\
  (0 <= selected m < len (files m) ->
     exists file, elems (files m) !! Z.to_nat (selected m) = Some file /\
       md = (if String.eqb (TrimSpace (lookupReview (reviews m) file)) ""
             then "_该文件暂无审查结果。_"
             else lookupReview (reviews m) file)) /\
  (selected m < 0 \/ len (files m) <= selected m -> md = "_未选中文件。_") /\
  (len (files m) <> 0 ->
     viewContent m =
       JoinHorizontal
         [ Render fileListStyle (Some (fst (columnWidths (width m))))
             (Join (imap (fun i f =>
                            if Z.of_nat i =? selected m
                            then Render selectedFileStyle None ("> " +:+ f)
                            else Render normalFileStyle None ("  " +:+ f))
                         (elems (files m))) "
");
           Render reviewStyle (Some (snd (columnWidths (width m))))
             (renderMarkdown md (snd (columnWidths (width m)))) ]) /\
  (forall wd,
     renderMarkdown md wd =
       match Glamour (if wd <=? 0 then 80 else wd) md with
       | Ok out => out
       | Err _ => md
       end).
Proof.
  intros md.
  assert (0 <= selected m < len (files m) ->
     exists file, elems (files m) !! Z.to_nat (selected m) = Some file /\
       md = (if String.eqb (TrimSpace (lookupReview (reviews m) file)) ""
             then "_该文件暂无审查结果。_"
             else lookupReview (reviews m) file)) as Hinside.
  { intros [Hlo Hhi]. subst md. unfold selectedReview.
    replace ((0 <=? selected m) && (selected m <? len (files m))) with true
      by (symmetry; apply andb_true_iff; split; [apply Z.leb_le|apply Z.ltb_lt]; lia).
    destruct (elems (files m) !! Z.to_nat (selected m)) as [file|] eqn:Hfile.
    - exists file. split; reflexivity.
    - exfalso. apply lookup_ge_None in Hfile. unfold len, elems in *.
      destruct (files m); simpl in *; lia. }
  assert (selected m < 0 \/ len (files m) <= selected m -> md = "_未选中文件。_")
    as Houtside.
  { intros Hout. subst md. unfold selectedReview.
    replace ((0 <=? selected m) && (selected m <? len (files m))) with false;
      [reflexivity|].
    symmetry. apply andb_false_iff.
    destruct Hout; [left; apply Z.leb_gt|right; apply Z.ltb_ge]; lia. }
  split; [|split; [exact Hinside|split; [exact Houtside|split]]].
  - destruct (Z.lt_ge_cases (selected m) 0) as [Hneg|Hlo].
    { rewrite Houtside by auto. vm_compute. reflexivity. }
    destruct (Z.lt_ge_cases (selected m) (len (files m))) as [Hhi|Hge].
    2:{ rewrite Houtside by (right; lia). vm_compute. reflexivity. }
    destruct (Hinside (conj Hlo Hhi)) as (file & _ & ->).
    destruct (String.eqb (TrimSpace (lookupReview (reviews m) file)) "") eqn:Hb.
    + vm_compute. reflexivity.
    + exact Hb.
  - intros Hfiles. unfold viewContent.
    replace (len (files m) =? 0) with false by (symmetry; now apply Z.eqb_neq).
    reflexivity.
  - intros wd. reflexivity.
Qed.

(** X25. From start to end: whatever keys, ticks and resizes come before
    and after it, once the message of the run has arrived the session is no
    longer loading, its error is the run's; and when the run succeeded its
    files and reviews are the run's and the cursor is on one of the files,
    if there is any. *)
Theorem session_settles_on_the_run
  (provider : option P) (w : W) (before after : list Msg) :
  forallb (fun msg => match msg with ReviewLoaded _ => false | _ => true end)
    (before ++ after) = true ->
  let msg := fst (loadReviewsCmd provider w) in
  let m := run (NewModel provider) (before ++ ReviewLoaded msg :: after) in
  loading m = false /\ err m = msg_err msg /\
  (msg_err msg = None ->
     files m = msg_files msg /\ reviews m = msg_reviews msg /\
     0 <= selected m /\ (0 < len (files m) -> selected m < len (files m))).
Proof.
  intros Hall msg m. rewrite forallb_app in Hall.
  apply andb_true_iff in Hall as [Hbefore Hafter].
  subst m. rewrite run_app.
  change (run (run (NewModel provider) before) (ReviewLoaded msg :: after))
    with (run (fst (Update (run (NewModel provider) before) (ReviewLoaded msg))) after).
  set (m1 := run (NewModel provider) before).
  set (m2 := fst (Update m1 (ReviewLoaded msg))).
  destruct (run_without_load_keeps after m2 Hafter) as (Hl & He & Hf & Hr).
  rewrite Hl, He, Hf, Hr.
  assert (cursor_ok (run m2 after)) as [Hlo Hhi].
  { apply ui_facts.run_keeps_cursor_ok. subst m2.
    apply ui_facts.Update_keeps_cursor_ok. subst m1.
    apply ui_facts.run_keeps_cursor_ok. unfold cursor_ok, NewModel. simpl. lia. }
  rewrite Hf in Hhi.
  assert (loading m2 = false /\ err m2 = msg_err msg /\
          (msg_err msg = None ->
             files m2 = msg_files msg /\ reviews m2 = msg_reviews msg))
    as (Hl2 & He2 & Hok2).
  { subst m2. simpl. destruct (msg_err msg) as [e|]; simpl.
    - split; [reflexivity|]. split; [reflexivity|discriminate].
    - destruct ((0 <? len (msg_files msg)) && (len (msg_files msg) <=? selected m1));
        simpl; auto. }
  split; [exact Hl2|]. split; [exact He2|].
  intros Hnone. destruct (Hok2 Hnone) as [Hf2 Hr2].
  split; [exact Hf2|]. split; [exact Hr2|]. split; [exact Hlo|].
  exact Hhi.
Qed.

End Lifecycle.

Section Sample.
Import samples.
#[local] Existing Instances playGit playBackend plainTerminal plainFmt.
#[local] Existing Instance ai.OpenAICompatible_LLMProvider.

Lemma session_settles_on_the_run_witness :
  let m := run (NewModel (S := Z) (Some reviewer))
             [KeyMsg "j"; TickMsg 1;
              ReviewLoaded (fst (loadReviewsCmd (Some reviewer) oneReviewed));
              KeyMsg "j"; WindowSizeMsg 120 40] in
  loading m = false /\ files m = Some ["a.go"].
Proof.
  destruct (session_settles_on_the_run (S := Z) (Some reviewer) oneReviewed
              [KeyMsg "j"; TickMsg 1] [KeyMsg "j"; WindowSizeMsg 120 40] eq_refl)
    as (Hl & _ & Hok).
  destruct (Hok eq_refl) as (Hf & _).
  split; [exact Hl|exact Hf].
Defined.

End Sample.

End lifecycle_facts.
